(** * OrderFlow: the order repositories and the session gate

    A shallow embedding of the Go sources of OrderFlow:

    - [pkg/order/order.go]: the [Order] entity, the [Repository]
      interface and [ErrNotFound];
    - [pkg/order/memory]: the in-memory repository (a map guarded by a
      read/write lock);
    - [pkg/order/postgres] and [order/pgstore.go]: the repository over
      [database/sql];
    - [order.Store]: the first, mutex-guarded store;
    - package [main]: the login handler, the authentication
      middleware and the order handlers over the [Repository]
      interface.

    Every repository method runs under the repository's lock (or is one
    SQL statement), so a method is modelled as one atomic step on the
    repository state: it takes the state and returns the new state
    together with the Go results.  A Go [error] result is an
    [option error], [None] being [nil]. *)

From Stdlib Require Import ZArith Ascii DecimalPos DecimalZ DecimalString.
From stdpp Require Import gmap strings list fin_maps.

(** ** Go values shared by all packages *)

(** The error values that the program tests for or passes on.  Errors
    of the drivers that the program only forwards are [other_error]. *)
Inductive error : Type :=
  | ErrNotFound                 (* order.ErrNotFound *)
  | sql_ErrNoRows               (* sql.ErrNoRows *)
  | context_Canceled            (* context.Canceled *)
  | context_DeadlineExceeded    (* context.DeadlineExceeded *)
  | redis_Nil                   (* redis.Nil: key absent or expired *)
  | http_ErrNoCookie            (* http.ErrNoCookie *)
  | other_error (msg : string). (* any other driver or decoding error *)

#[global] Instance error_eq_dec : EqDecision error.
Proof. solve_decision. Defined.

(** [err.Error()] *)
Definition Error_string (e : error) : string :=
  match e with
  | ErrNotFound => "order not found"
  | sql_ErrNoRows => "sql: no rows in result set"
  | context_Canceled => "context canceled"
  | context_DeadlineExceeded => "context deadline exceeded"
  | redis_Nil => "redis: nil"
  | http_ErrNoCookie => "http: named cookie not present"
  | other_error msg => msg
  end.

(** A Go slice is either [nil] or a (possibly empty) sequence backed by
    an array; [encoding/json] writes the first as [null] and the second
    as an array, so the two are kept apart. *)
Inductive slice (A : Type) : Type :=
  | nil_slice
  | slice_of (elems : list A).
Arguments nil_slice {A}.
Arguments slice_of {A} elems.

(** [make([]T, 0, n)]: the capacity is not observable. *)
Definition make {A} (cap : nat) : slice A := slice_of [].

(** [append(s, x)] *)
Definition append {A} (s : slice A) (x : A) : slice A :=
  match s with
  | nil_slice => slice_of [x]
  | slice_of l => slice_of (l ++ [x])
  end.

(** [len(s)] *)
Definition len {A} (s : slice A) : nat :=
  match s with
  | nil_slice => 0
  | slice_of l => length l
  end.

(** [s == nil] *)
Definition is_nil {A} (s : slice A) : bool :=
  match s with
  | nil_slice => true
  | slice_of _ => false
  end.

(** The elements of a slice, in order. *)
Definition elems_of {A} (s : slice A) : list A :=
  match s with
  | nil_slice => []
  | slice_of l => l
  end.

(** ** package context *)

Inductive ctx_state : Type := Live | Canceled | DeadlineExceeded.

(** A context: its cancellation state and the values attached to it,
    the most recent first. *)
Record Context : Type := {
  ctx_done : ctx_state;
  ctx_values : list (string * string)
}.

Definition Background : Context :=
  {| ctx_done := Live; ctx_values := [] |}.

(** [ctx.Err()] *)
Definition Err (ctx : Context) : option error :=
  match ctx_done ctx with
  | Live => None
  | Canceled => Some context_Canceled
  | DeadlineExceeded => Some context_DeadlineExceeded
  end.

(** [context.WithValue(ctx, key, val)] *)
Definition WithValue (ctx : Context) (key val : string) : Context :=
  {| ctx_done := ctx_done ctx; ctx_values := (key, val) :: ctx_values ctx |}.

(** [ctx.Value(key)] *)
Fixpoint lookup_value (kvs : list (string * string)) (key : string) : option string :=
  match kvs with
  | [] => None
  | (k, v) :: rest => if String.eqb k key then Some v else lookup_value rest key
  end.

Definition Value (ctx : Context) (key : string) : option string :=
  lookup_value (ctx_values ctx) key.

(** ** package order ([pkg/order/order.go]) *)

Module order.

(** [type Order struct { ID, Item string; Quantity int }].  Nothing in
    the program computes with [Quantity]; it is kept as an integer. *)
Record Order : Type := {
  ID : string;
  Item : string;
  Quantity : Z
}.

(** [Order{}], the zero value. *)
Definition zero : Order := {| ID := ""; Item := ""; Quantity := 0 |}.

(** [o.ID = id] *)
Definition with_ID (o : Order) (id : string) : Order :=
  {| ID := id; Item := Item o; Quantity := Quantity o |}.

(** [type Repository interface]: the five methods, as steps on the
    state [R] of the implementation. *)
Class Repository (R : Type) : Type := {
  Create : Context -> Order -> R -> R * option error;
  Get : Context -> string -> R -> Order * option error;
  List : Context -> R -> slice Order * option error;
  Update : Context -> Order -> R -> R * option error;
  Delete : Context -> string -> R -> R * option error
}.

End order.

Import order (Order, ID, Item, Quantity).

#[global] Instance Order_eq_dec : EqDecision Order.
Proof. solve_decision. Defined.

(** ** package memory ([pkg/order/memory/memory.go]) *)

Module memory.

(** [type Repository struct { mu sync.RWMutex; orders map[string]order.Order }] *)
Record Repository : Type := { orders : gmap string Order }.

(** [New] *)
Definition New : Repository := {| orders := ∅ |}.

(** [Create]: [r.orders[o.ID] = o; return nil] *)
Definition Create (ctx : Context) (o : Order) (r : Repository)
  : Repository * option error :=
  ({| orders := <[ID o := o]> (orders r) |}, None).

(** [Get] *)
Definition Get (ctx : Context) (id : string) (r : Repository)
  : Order * option error :=
  match orders r !! id with
  | None => (order.zero, Some ErrNotFound)
  | Some o => (o, None)
  end.

(** [List]: the loop appends every value of the map to
    [make([]order.Order, 0, len(r.orders))]; Go leaves the iteration
    order open, here it is the order of [map_to_list]. *)
Definition List (ctx : Context) (r : Repository)
  : slice Order * option error :=
  (foldl (fun out kv => append out (snd kv))
         (make (size (orders r)))
         (map_to_list (orders r)),
   None).

(** [Update] *)
Definition Update (ctx : Context) (o : Order) (r : Repository)
  : Repository * option error :=
  match orders r !! ID o with
  | None => (r, Some ErrNotFound)
  | Some _ => ({| orders := <[ID o := o]> (orders r) |}, None)
  end.

(** [Delete] *)
Definition Delete (ctx : Context) (id : string) (r : Repository)
  : Repository * option error :=
  match orders r !! id with
  | None => (r, Some ErrNotFound)
  | Some _ => ({| orders := delete id (orders r) |}, None)
  end.

#[global] Instance repository : order.Repository Repository := {|
  order.Create := Create;
  order.Get := Get;
  order.List := List;
  order.Update := Update;
  order.Delete := Delete
|}.

(** The calls that change a repository, and the state reached from
    a given one by a sequence of such calls whatever their outcomes. *)
Inductive call : Type :=
  | call_Create (o : Order)
  | call_Update (o : Order)
  | call_Delete (id : string).

Definition step (ctx : Context) (c : call) (r : Repository) : Repository :=
  match c with
  | call_Create o => fst (Create ctx o r)
  | call_Update o => fst (Update ctx o r)
  | call_Delete id => fst (Delete ctx id r)
  end.

Definition run (ctx : Context) (cs : list call) (r : Repository) : Repository :=
  foldl (fun r c => step ctx c r) r cs.

(** Every stored order sits under its own identifier. *)
Definition keyed (r : Repository) : Prop :=
  forall k o, orders r !! k = Some o -> ID o = k.

End memory.

(** ** The first store ([order.Store], mutex-guarded, no errors) *)

Module store.

Record Store : Type := { orders : gmap string Order }.

(** [NewStore] *)
Definition NewStore : Store := {| orders := ∅ |}.

(** [Create]: [s.orders[o.ID] = o] *)
Definition Create (o : Order) (s : Store) : Store :=
  {| orders := <[ID o := o]> (orders s) |}.

(** [List] *)
Definition List (s : Store) : slice Order :=
  foldl (fun out kv => append out (snd kv))
        (make (size (orders s)))
        (map_to_list (orders s)).

End store.

(** ** package strconv *)

(** [strconv.FormatInt(n, 10)] *)
Definition FormatInt (n : Z) : string := NilEmpty.string_of_int (Z.to_int n).

(** ** The relational store behind [database/sql]

    The program reaches PostgreSQL through [*sql.DB] with five
    parameterised statements over one table,
    [orders (id TEXT PRIMARY KEY, item TEXT, quantity INT)].  The engine
    is outside the repository; this module states what the program
    relies on: the table is a finite map from the primary key to the two
    other columns (both nullable), a statement issued with a finished
    context fails with the context's error, and [fault] is the error, if
    any, with which the engine or the connection answers instead of
    executing (connection loss, timeout, an encoding it refuses). *)

Module sql.

Definition Row : Type := string * option string * option Z.

Record DB : Type := {
  table : gmap string (option string * option Z);
  fault : option error
}.

Definition with_table (db : DB) (t : gmap string (option string * option Z)) : DB :=
  {| table := t; fault := fault db |}.

Inductive Stmt : Type :=
  | INSERT (id item : string) (quantity : Z)
      (* INSERT INTO orders (id,item,quantity) VALUES ($1,$2,$3) *)
  | UPDATE (id item : string) (quantity : Z)
      (* UPDATE orders SET item=$2, quantity=$3 WHERE id=$1 *)
  | DELETE (id : string).
      (* DELETE FROM orders WHERE id=$1 *)

(** The column type INT holds 32-bit integers. *)
Definition int4 (q : Z) : bool := ((-2147483648 <=? q) && (q <=? 2147483647))%Z.

(** The errors with which the engine and [database/sql] answer, with
    the text of [err.Error()].  [quoted s] is [s] between double
    quotes. *)
Definition quoted (s : string) : string :=
  String "034"%char (s ++ String "034"%char EmptyString).

(** lib/pq on a second row for a primary key of table [orders]. *)
Definition unique_violation : error :=
  other_error ("pq: duplicate key value violates unique constraint "
               ++ quoted "orders_pkey").

(** lib/pq on a parameter, sent as decimal text, that does not fit the
    INT column. *)
Definition out_of_range (q : Z) : error :=
  other_error ("pq: value " ++ quoted (FormatInt q)
               ++ " is out of range for type integer").

(** [Rows.Scan] on a NULL in the column of the given index and name,
    for a destination of the given Go kind. *)
Definition null_conversion (index name kind : string) : error :=
  other_error ("sql: Scan error on column index " ++ index ++ ", name "
               ++ quoted name ++ ": converting NULL to " ++ kind
               ++ " is unsupported").

(** What a statement does once the engine executes it: the new table
    and the number of rows affected, or the engine's error. *)
Definition run (s : Stmt) (t : gmap string (option string * option Z))
  : gmap string (option string * option Z) * (Z * option error) :=
  match s with
  | INSERT id item q =>
      if negb (int4 q) then (t, (0%Z, Some (out_of_range q)))
      else match t !! id with
           | Some _ => (t, (0%Z, Some unique_violation))
           | None => (<[id := (Some item, Some q)]> t, (1%Z, None))
           end
  | UPDATE id item q =>
      if negb (int4 q) then (t, (0%Z, Some (out_of_range q)))
      else match t !! id with
           | Some _ => (<[id := (Some item, Some q)]> t, (1%Z, None))
           | None => (t, (0%Z, None))
           end
  | DELETE id =>
      match t !! id with
      | Some _ => (delete id t, (1%Z, None))
      | None => (t, (0%Z, None))
      end
  end.

(** [db.ExecContext(ctx, stmt, args...)]: the rows affected and the
    error. *)
Definition ExecContext (ctx : Context) (s : Stmt) (db : DB)
  : DB * (Z * option error) :=
  match Err ctx with
  | Some e => (db, (0%Z, Some e))
  | None =>
      match fault db with
      | Some e => (db, (0%Z, Some e))
      | None => let '(t, res) := run s (table db) in (with_table db t, res)
      end
  end.

(** [rows.Scan(&o.ID, &o.Item, &o.Quantity)] into a zero [Order]: the
    columns are converted in order, and the first NULL stops the scan
    with the earlier fields already assigned. *)
Definition Scan (row : Row) : Order * option error :=
  let '(id, item, quantity) := row in
  match item with
  | None => (order.with_ID order.zero id, Some (null_conversion "1" "item" "string"))
  | Some it =>
      match quantity with
      | None => ({| ID := id; Item := it; Quantity := 0 |},
                 Some (null_conversion "2" "quantity" "int"))
      | Some q => ({| ID := id; Item := it; Quantity := q |}, None)
      end
  end.

(** An open result set: the rows still to be read and the error that
    [rows.Err()] reports once they are exhausted. *)
Record Rows : Type := {
  remaining : list Row;
  rows_err : option error
}.

Definition no_rows : Rows := {| remaining := []; rows_err := None |}.

Definition row_of (kv : string * (option string * option Z)) : Row :=
  (fst kv, fst (snd kv), snd (snd kv)).

(** [db.QueryContext(ctx, "SELECT id,item,quantity FROM orders")] *)
Definition QueryContext (ctx : Context) (db : DB) : Rows * option error :=
  match Err ctx with
  | Some e => (no_rows, Some e)
  | None =>
      match fault db with
      | Some e => (no_rows, Some e)
      | None => ({| remaining := row_of <$> map_to_list (table db);
                    rows_err := None |}, None)
      end
  end.

(** [db.QueryRowContext(ctx, "SELECT id,item,quantity FROM orders WHERE id=$1", id).Scan(...)] *)
Definition QueryRowContext_Scan (ctx : Context) (id : string) (db : DB)
  : Order * option error :=
  match Err ctx with
  | Some e => (order.zero, Some e)
  | None =>
      match fault db with
      | Some e => (order.zero, Some e)
      | None =>
          match table db !! id with
          | None => (order.zero, Some sql_ErrNoRows)
          | Some cols => Scan (id, fst cols, snd cols)
          end
      end
  end.

(** No cell of the table is NULL. *)
Definition non_null (t : gmap string (option string * option Z)) : Prop :=
  forall k cols, t !! k = Some cols -> is_Some (fst cols) /\ is_Some (snd cols).

(** The row that holds the order [o]. *)
Definition cols_of (o : Order) : option string * option Z :=
  (Some (Item o), Some (Quantity o)).

End sql.

(** ** package postgres ([pkg/order/postgres]) *)

Module postgres.

(** [type Repository struct { db *sql.DB }] *)
Record Repository : Type := { db : sql.DB }.

Definition New (d : sql.DB) : Repository := {| db := d |}.

(** [Create] *)
Definition Create (ctx : Context) (o : Order) (r : Repository)
  : Repository * option error :=
  let '(d, (_, err)) :=
    sql.ExecContext ctx (sql.INSERT (ID o) (Item o) (Quantity o)) (db r) in
  ({| db := d |}, err).

(** [Get] *)
Definition Get (ctx : Context) (id : string) (r : Repository)
  : Order * option error :=
  let '(o, err) := sql.QueryRowContext_Scan ctx id (db r) in
  if decide (err = Some sql_ErrNoRows) then (order.zero, Some ErrNotFound)
  else (o, err).

(** The loop of [List]: [for rows.Next() { ... }] starting from
    [var orders []order.Order]. *)
Fixpoint scan_all (rows : list sql.Row) (final : option error)
    (orders : slice Order) : slice Order * option error :=
  match rows with
  | [] => (orders, final)
  | row :: rest =>
      match sql.Scan row with
      | (_, Some err) => (nil_slice, Some err)
      | (o, None) => scan_all rest final (append orders o)
      end
  end.

(** [List] *)
Definition List (ctx : Context) (r : Repository)
  : slice Order * option error :=
  match sql.QueryContext ctx (db r) with
  | (_, Some err) => (nil_slice, Some err)
  | (rows, None) =>
      scan_all (sql.remaining rows) (sql.rows_err rows) nil_slice
  end.

(** [Update] *)
Definition Update (ctx : Context) (o : Order) (r : Repository)
  : Repository * option error :=
  let '(d, (n, err)) :=
    sql.ExecContext ctx (sql.UPDATE (ID o) (Item o) (Quantity o)) (db r) in
  match err with
  | Some e => ({| db := d |}, Some e)
  | None =>
      if (n =? 0)%Z then ({| db := d |}, Some ErrNotFound)
      else ({| db := d |}, None)
  end.

(** [Delete] *)
Definition Delete (ctx : Context) (id : string) (r : Repository)
  : Repository * option error :=
  let '(d, (n, err)) := sql.ExecContext ctx (sql.DELETE id) (db r) in
  match err with
  | Some e => ({| db := d |}, Some e)
  | None =>
      if (n =? 0)%Z then ({| db := d |}, Some ErrNotFound)
      else ({| db := d |}, None)
  end.

#[global] Instance repository : order.Repository Repository := {|
  order.Create := Create;
  order.Get := Get;
  order.List := List;
  order.Update := Update;
  order.Delete := Delete
|}.

End postgres.

(** ** [order.PGStore] ([order/pgstore.go]): Create and List only *)

Module pgstore.

Record PGStore : Type := { db : sql.DB }.

Definition NewPGStore (d : sql.DB) : PGStore := {| db := d |}.

(** [Create] *)
Definition Create (ctx : Context) (o : Order) (s : PGStore)
  : PGStore * option error :=
  let '(d, (_, err)) :=
    sql.ExecContext ctx (sql.INSERT (ID o) (Item o) (Quantity o)) (db s) in
  ({| db := d |}, err).

(** [List]: the same loop as [postgres.List]. *)
Definition List (ctx : Context) (s : PGStore)
  : slice Order * option error :=
  match sql.QueryContext ctx (db s) with
  | (_, Some err) => (nil_slice, Some err)
  | (rows, None) =>
      postgres.scan_all (sql.remaining rows) (sql.rows_err rows) nil_slice
  end.

End pgstore.

(** ** The session store behind [redis.Client]

    The key-value store is outside the repository too.  The program
    uses [Set] with a time-to-live and [Get]; a key whose time-to-live
    has elapsed is answered like a key that was never set, with
    [redis.Nil].  Instants and durations are nanoseconds, as in package
    [time]. *)

Module redis.

Record Client : Type := {
  data : gmap string (string * Z);   (* value and the instant it expires *)
  fault : option error
}.

Definition empty : Client := {| data := ∅; fault := None |}.

(** [client.Set(ctx, key, value, ttl).Err()] at instant [now]
    ([Set] itself is a reserved word here). *)
Definition Set_ (ctx : Context) (key value : string) (ttl now : Z) (c : Client)
  : Client * option error :=
  match Err ctx with
  | Some e => (c, Some e)
  | None =>
      match fault c with
      | Some e => (c, Some e)
      | None => ({| data := <[key := (value, (now + ttl)%Z)]> (data c);
                    fault := fault c |}, None)
      end
  end.

(** [client.Get(ctx, key).Result()] at instant [now] *)
Definition Get (ctx : Context) (key : string) (now : Z) (c : Client)
  : string * option error :=
  match Err ctx with
  | Some e => ("", Some e)
  | None =>
      match fault c with
      | Some e => ("", Some e)
      | None =>
          match data c !! key with
          | Some (v, expires) =>
              if (now <? expires)%Z then (v, None) else ("", Some redis_Nil)
          | None => ("", Some redis_Nil)
          end
      end
  end.

End redis.

(** ** package time *)

(** [time.Hour], in nanoseconds *)
Definition Hour : Z := 3600000000000.

(** ** package net/http, as far as the handlers use it *)

Module http.

Definition StatusOK : Z := 200.
Definition StatusCreated : Z := 201.
Definition StatusNoContent : Z := 204.
Definition StatusBadRequest : Z := 400.
Definition StatusUnauthorized : Z := 401.
Definition StatusNotFound : Z := 404.
Definition StatusInternalServerError : Z := 500.

(** [http.Cookie], the fields the program sets. *)
Record Cookie : Type := {
  Name : string;
  Value : string;
  Path : string;
  Expires : Z;
  HttpOnly : bool
}.

(** The outcome of [json.NewDecoder(r.Body).Decode(&v)]. *)
Inductive decoded (B : Type) : Type :=
  | Decoded (v : B)
  | Malformed (e : error).
Arguments Decoded {B} v.
Arguments Malformed {B} e.

(** A request, as the router hands it to a handler whose body type is
    [B]: its context, the cookies it carries (name and value), the
    path variables and the decoded body. *)
Record Request (B : Type) : Type := {
  ctx : Context;
  cookies : list (string * string);
  vars : gmap string string;
  body : decoded B
}.
Arguments ctx {B} _.
Arguments cookies {B} _.
Arguments vars {B} _.
Arguments body {B} _.

(** [r.WithContext(ctx)] *)
Definition WithContext {B} (r : Request B) (c : Context) : Request B :=
  {| ctx := c; cookies := cookies r; vars := vars r; body := body r |}.

(** [r.Cookie(name)]: the value of the first cookie of that name, or
    [http.ErrNoCookie]. *)
Fixpoint find_cookie (cs : list (string * string)) (name : string)
  : string * option error :=
  match cs with
  | [] => ("", Some http_ErrNoCookie)
  | (n, v) :: rest => if String.eqb n name then (v, None) else find_cookie rest name
  end.

Definition Cookie_of {B} (r : Request B) (name : string) : string * option error :=
  find_cookie (cookies r) name.

(** [mux.Vars(r)[name]] *)
Definition Var {B} (r : Request B) (name : string) : string :=
  default "" (vars r !! name).

(** What a handler wrote: the status, the body and the cookies set.
    Other headers are not modelled. *)
Inductive Body : Type :=
  | no_body
  | text (msg : string)
  | json_order (o : Order)
  | json_orders (os : slice Order).

Record Response : Type := {
  status : Z;
  written : Body;
  set_cookies : list Cookie
}.

(** [http.Error(w, msg, code)]; the newline that follows the message
    is left out. *)
Definition Error (msg : string) (code : Z) : Response :=
  {| status := code; written := text msg; set_cookies := [] |}.

(** [http.NotFound(w, r)] *)
Definition NotFound : Response := Error "404 page not found" StatusNotFound.

End http.

(** ** package main ([cmd/api/main.go]) *)

Module api.

Import http.

(** The package-level variables [redisClient] and [repo], and the
    clock that [time.Now()] reads: [now] is [time.Now().UnixNano()], one
    reading for the whole request.  Logging and tracing spans are left
    out; they do not touch the response, the repository or the session
    store. *)
Record World (R : Type) : Type := {
  redisClient : redis.Client;
  repo : R;
  now : Z
}.
Arguments redisClient {R} _.
Arguments repo {R} _.
Arguments now {R} _.

Definition with_redis {R} (w : World R) (c : redis.Client) : World R :=
  {| redisClient := c; repo := repo w; now := now w |}.

Definition with_repo {R} (w : World R) (r : R) : World R :=
  {| redisClient := redisClient w; repo := r; now := now w |}.

(** [http.Handler]: a step on the world that writes a response. *)
Definition Handler (R B : Type) : Type := Request B -> World R -> World R * Response.

(** [type loginRequest struct { Username, Password string }] *)
Record loginRequest : Type := {
  Username : string;
  Password : string
}.

(** [loginHandler] *)
Definition loginHandler {R} : Handler R loginRequest := fun r w =>
  match body r with
  | Malformed _ => (w, Error "invalid credentials" StatusBadRequest)
  | Decoded req =>
      if String.eqb (Username req) "" then
        (w, Error "invalid credentials" StatusBadRequest)
      else
        let sid := FormatInt (now w) in
        let '(c, err) :=
          redis.Set_ (ctx r) ("session:" ++ sid) (Username req) Hour (now w)
                    (redisClient w) in
        match err with
        | Some _ => (with_redis w c, Error "session error" StatusInternalServerError)
        | None =>
            (with_redis w c,
             {| status := StatusOK;
                written := no_body;
                set_cookies := [ {| Name := "session_id"; Value := sid;
                                    Path := "/"; Expires := (now w + Hour)%Z;
                                    HttpOnly := true |} ] |})
        end
  end.

(** [authMiddleware] *)
Definition authMiddleware {R B} (next : Handler R B) : Handler R B := fun r w =>
  match Cookie_of r "session_id" with
  | (_, Some _) => (w, Error "unauthorized" StatusUnauthorized)
  | (c, None) =>
      let '(user, err) :=
        redis.Get (ctx r) ("session:" ++ c) (now w) (redisClient w) in
      if bool_decide (err <> None) || String.eqb user "" then
        (w, Error "unauthorized" StatusUnauthorized)
      else
        next (WithContext r (WithValue (ctx r) "user" user)) w
  end.

Section handlers.

Context {R : Type} `{!order.Repository R}.

(** [createOrderHandler] *)
Definition createOrderHandler : Handler R Order := fun r w =>
  match body r with
  | Malformed e => (w, Error (Error_string e) StatusBadRequest)
  | Decoded o =>
      let o := if String.eqb (ID o) "" then order.with_ID o (FormatInt (now w))
               else o in
      let '(rp, err) := order.Create (ctx r) o (repo w) in
      match err with
      | Some e => (with_repo w rp, Error (Error_string e) StatusInternalServerError)
      | None =>
          (with_repo w rp,
           {| status := StatusCreated; written := json_order o; set_cookies := [] |})
      end
  end.

(** [listOrdersHandler] *)
Definition listOrdersHandler {B} : Handler R B := fun r w =>
  match order.List (ctx r) (repo w) with
  | (_, Some e) => (w, Error (Error_string e) StatusInternalServerError)
  | (orders, None) =>
      (w, {| status := StatusOK; written := json_orders orders; set_cookies := [] |})
  end.

(** [getOrderHandler] *)
Definition getOrderHandler {B} : Handler R B := fun r w =>
  let id := Var r "id" in
  match order.Get (ctx r) id (repo w) with
  | (_, Some e) =>
      if decide (e = ErrNotFound) then (w, NotFound)
      else (w, Error (Error_string e) StatusInternalServerError)
  | (o, None) =>
      (w, {| status := StatusOK; written := json_order o; set_cookies := [] |})
  end.

(** [updateOrderHandler] *)
Definition updateOrderHandler : Handler R Order := fun r w =>
  let id := Var r "id" in
  match body r with
  | Malformed e => (w, Error (Error_string e) StatusBadRequest)
  | Decoded o =>
      let o := order.with_ID o id in
      let '(rp, err) := order.Update (ctx r) o (repo w) in
      match err with
      | Some e =>
          if decide (e = ErrNotFound) then (with_repo w rp, NotFound)
          else (with_repo w rp, Error (Error_string e) StatusInternalServerError)
      | None =>
          (with_repo w rp,
           {| status := StatusOK; written := json_order o; set_cookies := [] |})
      end
  end.

(** [deleteOrderHandler] *)
Definition deleteOrderHandler {B} : Handler R B := fun r w =>
  let id := Var r "id" in
  let '(rp, err) := order.Delete (ctx r) id (repo w) in
  match err with
  | Some e =>
      if decide (e = ErrNotFound) then (with_repo w rp, NotFound)
      else (with_repo w rp, Error (Error_string e) StatusInternalServerError)
  | None =>
      (with_repo w rp,
       {| status := StatusNoContent; written := no_body; set_cookies := [] |})
  end.

End handlers.

(** The routes that [main] registers on the [/orders] subrouter, and
    the handler of each. *)
Inductive OrderRoute : Type :=
  | POST_orders        (* api.HandleFunc("", createOrderHandler).Methods(POST) *)
  | GET_orders         (* api.HandleFunc("", listOrdersHandler).Methods(GET) *)
  | GET_order          (* api.HandleFunc("/{id}", getOrderHandler).Methods(GET) *)
  | PUT_order          (* api.HandleFunc("/{id}", updateOrderHandler).Methods(PUT) *)
  | DELETE_order.      (* api.HandleFunc("/{id}", deleteOrderHandler).Methods(DELETE) *)

Definition order_handler {R : Type} `{!order.Repository R} (rt : OrderRoute)
  : Handler R Order :=
  match rt with
  | POST_orders => createOrderHandler
  | GET_orders => listOrdersHandler
  | GET_order => getOrderHandler
  | PUT_order => updateOrderHandler
  | DELETE_order => deleteOrderHandler
  end.

(** [api.Use(authMiddleware)]: every route of the subrouter runs behind
    the gate. *)
Definition orders_api {R : Type} `{!order.Repository R} (rt : OrderRoute)
  : Handler R Order :=
  authMiddleware (order_handler rt).

(** The same world at a later (or earlier) clock reading. *)
Definition with_now {R} (w : World R) (t : Z) : World R :=
  {| redisClient := redisClient w; repo := repo w; now := t |}.

End api.

(** * Properties *)

(** ** The in-memory repository *)

Section memory_facts.

Implicit Types (ctx : Context) (o e : Order) (r : memory.Repository) (id : string).

(** The context is a dead parameter of the five in-memory methods. *)
Lemma memory_Create_spec ctx o r :
  memory.Create ctx o r = ({| memory.orders := <[ID o := o]> (memory.orders r) |}, None).
Proof. reflexivity. Qed.

Lemma memory_Get_Some ctx id r o :
  memory.orders r !! id = Some o -> memory.Get ctx id r = (o, None).
Proof. intros H. unfold memory.Get. now rewrite H. Qed.

Lemma memory_Get_None ctx id r :
  memory.orders r !! id = None -> memory.Get ctx id r = (order.zero, Some ErrNotFound).
Proof. intros H. unfold memory.Get. now rewrite H. Qed.

(** [Update] of a stored identifier succeeds. *)
Lemma memory_Update_stored ctx o r :
  is_Some (memory.orders r !! ID o) ->
  memory.Update ctx o r = ({| memory.orders := <[ID o := o]> (memory.orders r) |}, None).
Proof. intros [old H]. unfold memory.Update. now rewrite H. Qed.

(** Nothing is stored in a new repository. *)
Lemma memory_New_absent id : memory.orders memory.New !! id = None.
Proof. apply lookup_empty. Qed.

(** A deleted identifier is absent afterwards, whether or not the
    call found it. *)
Lemma memory_Delete_absent ctx id r :
  memory.orders (fst (memory.Delete ctx id r)) !! id = None.
Proof.
  unfold memory.Delete.
  destruct (memory.orders r !! id) eqn:E; simpl.
  - apply lookup_delete_eq.
  - exact E.
Qed.

End memory_facts.

(** ** The SQL-backed repository, on a live context and a healthy
    connection *)

Section postgres_facts.

Variables (ctx : Context) (p : postgres.Repository).
Hypothesis ctx_live : Err ctx = None.
Hypothesis healthy : sql.fault (postgres.db p) = None.

(** X14: on a live context and a healthy connection, an identifier
    without a row is reported as [ErrNotFound] by [Get], [Update]
    (whose quantity fits the column) and [Delete], and the repository
    is left as it was. *)
Lemma postgres_absent_id (id : string) (o : Order) :
  sql.table (postgres.db p) !! id = None ->
  ID o = id -> sql.int4 (Quantity o) = true ->
  postgres.Get ctx id p = (order.zero, Some ErrNotFound) /\
  postgres.Update ctx o p = (p, Some ErrNotFound) /\
  postgres.Delete ctx id p = (p, Some ErrNotFound).
Proof.
  intros Habs <- Hq.
  unfold postgres.Get, postgres.Update, postgres.Delete,
    sql.QueryRowContext_Scan, sql.ExecContext, sql.run.
  rewrite ctx_live, healthy, Habs, Hq. simpl.
  destruct p as [[t f]]. simpl in *. subst f. auto.
Qed.

(** X15: on a live context and a healthy connection, a [Create]
    that returns no error found no row under the identifier, and [Get]
    of that identifier then returns the created order whole. *)
Lemma postgres_Create_Get (o : Order) (p' : postgres.Repository) :
  postgres.Create ctx o p = (p', None) ->
  sql.table (postgres.db p) !! ID o = None /\
  postgres.Get ctx (ID o) p' = (o, None).
Proof.
  unfold postgres.Create, postgres.Get, sql.QueryRowContext_Scan, sql.ExecContext, sql.run.
  rewrite ctx_live, healthy.
  destruct (sql.int4 (Quantity o)); simpl; [|discriminate].
  destruct (sql.table (postgres.db p) !! ID o) eqn:E; simpl; [discriminate|].
  intros [= <-]. simpl. rewrite healthy, lookup_insert_eq. simpl.
  destruct o; auto.
Qed.

End postgres_facts.

(** C1: for every order [e] with a non-empty identifier, [Create(e)]
    on any repository succeeds, and [Get(e.ID)] on the resulting state
    returns exactly [e] and no error; in particular the item and the
    quantity read back are those of [e]. *)
Theorem create_get_roundtrip (ctx ctx' : Context) (e : Order) (r : memory.Repository) :
  ID e <> "" ->
  snd (memory.Create ctx e r) = None /\
  memory.Get ctx' (ID e) (fst (memory.Create ctx e r)) = (e, None) /\
  Item (fst (memory.Get ctx' (ID e) (fst (memory.Create ctx e r)))) = Item e /\
  Quantity (fst (memory.Get ctx' (ID e) (fst (memory.Create ctx e r)))) = Quantity e.
Proof.
  intros _.
  assert (G : memory.Get ctx' (ID e) (fst (memory.Create ctx e r)) = (e, None)).
  { apply memory_Get_Some. simpl. apply lookup_insert_eq. }
  rewrite G. repeat split.
Qed.

Lemma create_get_roundtrip_witness :
  let e := {| ID := "1"; Item := "Widget"; Quantity := 2 |} in
  memory.Get Background "1" (fst (memory.Create Background e memory.New)) = (e, None).
Proof.
  intros e.
  apply (create_get_roundtrip Background Background e memory.New).
  simpl. discriminate.
Defined.

(** C2: for every repository state and every identifier that is not
    in the store, [Get], [Update] with an order carrying that
    identifier, and [Delete] each fail with [ErrNotFound] (and leave the
    state as it was).  An identifier is not in the store of a new
    repository ([memory_New_absent]) nor after its deletion
    ([memory_Delete_absent]). *)
Theorem absent_id_not_found (ctx : Context) (r : memory.Repository)
    (id : string) (o : Order) :
  memory.orders r !! id = None ->
  ID o = id ->
  memory.Get ctx id r = (order.zero, Some ErrNotFound) /\
  memory.Update ctx o r = (r, Some ErrNotFound) /\
  memory.Delete ctx id r = (r, Some ErrNotFound).
Proof.
  intros Habs <-.
  unfold memory.Get, memory.Update, memory.Delete.
  rewrite Habs. auto.
Qed.

Lemma absent_id_not_found_witness :
  let o := {| ID := "missing"; Item := "Widget"; Quantity := 2 |} in
  let r := fst (memory.Delete Background "missing"
                  (fst (memory.Create Background o memory.New))) in
  memory.Get Background "missing" r = (order.zero, Some ErrNotFound) /\
  memory.Update Background o r = (r, Some ErrNotFound) /\
  memory.Delete Background "missing" r = (r, Some ErrNotFound).
Proof.
  intros o r.
  apply (absent_id_not_found Background r "missing" o).
  - vm_compute. reflexivity.
  - reflexivity.
Defined.

(** C4: when the in-memory repository already holds an order under
    the identifier of [o], [Create(o)] returns no error and replaces the
    stored order by [o]: the identifier now reads [o], every other
    identifier reads as before, and the number of stored orders is the
    same.  The first store, [order.Store], whose [Create] has no error
    result at all, does the same. *)
Theorem create_overwrites (ctx : Context) (r : memory.Repository) (s : store.Store)
    (o old old' : Order) :
  memory.orders r !! ID o = Some old ->
  store.orders s !! ID o = Some old' ->
  (snd (memory.Create ctx o r) = None /\
   memory.orders (fst (memory.Create ctx o r)) !! ID o = Some o /\
   (forall id, id <> ID o ->
      memory.orders (fst (memory.Create ctx o r)) !! id = memory.orders r !! id) /\
   size (memory.orders (fst (memory.Create ctx o r))) = size (memory.orders r)) /\
  (store.orders (store.Create o s) !! ID o = Some o /\
   (forall id, id <> ID o ->
      store.orders (store.Create o s) !! id = store.orders s !! id) /\
   size (store.orders (store.Create o s)) = size (store.orders s)).
Proof.
  intros Hr Hs. simpl.
  assert (Hsize : forall (m : gmap string Order) v,
             m !! ID o = Some v -> size (<[ID o := o]> m) = size m).
  { intros m v Hm.
    rewrite <- (insert_delete_id m (ID o) v Hm) at 2.
    rewrite <- (insert_delete_eq m (ID o) o).
    rewrite !map_size_insert_None by apply lookup_delete_eq.
    reflexivity. }
  repeat split.
  - apply lookup_insert_eq.
  - intros id Hne. apply lookup_insert_ne. congruence.
  - eapply Hsize, Hr.
  - apply lookup_insert_eq.
  - intros id Hne. apply lookup_insert_ne. congruence.
  - eapply Hsize, Hs.
Qed.

Lemma create_overwrites_witness :
  let old := {| ID := "1"; Item := "Widget"; Quantity := 2 |} in
  let o := {| ID := "1"; Item := "Gadget"; Quantity := 5 |} in
  let r := fst (memory.Create Background old memory.New) in
  let s := store.Create old store.NewStore in
  snd (memory.Create Background o r) = None /\
  memory.orders (fst (memory.Create Background o r)) !! "1" = Some o /\
  store.orders (store.Create o s) !! "1" = Some o.
Proof.
  intros old o r s.
  destruct (create_overwrites Background r s o old old) as [(H1 & H2 & _) (H3 & _)].
  - vm_compute. reflexivity.
  - vm_compute. reflexivity.
  - exact (conj H1 (conj H2 H3)).
Defined.

(** C5: a successful [Update(o)] finds the identifier of [o] in the
    store, leaves the whole order [o] under that identifier, and leaves
    every other identifier exactly as it was.  This holds, each on its
    own, for the in-memory repository, under any context and for any
    quantity, where [Update] of a stored identifier always succeeds,
    and for the repository over the SQL table, where the UPDATE
    statement rewrites the two other columns of the one row whose key is
    the identifier. *)
Theorem update_changes_only_target (ctx ctx' : Context) (o : Order)
    (r r' : memory.Repository) (p p' : postgres.Repository) :
  (is_Some (memory.orders r !! ID o) -> snd (memory.Update ctx o r) = None) /\
  (memory.Update ctx o r = (r', None) ->
   is_Some (memory.orders r !! ID o) /\
   memory.orders r' !! ID o = Some o /\
   (forall id, id <> ID o -> memory.orders r' !! id = memory.orders r !! id)) /\
  (postgres.Update ctx' o p = (p', None) ->
   is_Some (sql.table (postgres.db p) !! ID o) /\
   sql.table (postgres.db p') !! ID o = Some (Some (Item o), Some (Quantity o)) /\
   (forall id, id <> ID o ->
      sql.table (postgres.db p') !! id = sql.table (postgres.db p) !! id) /\
   postgres.Get ctx' (ID o) p' = (o, None)).
Proof.
  split; [|split].
  - intros [old E]. unfold memory.Update. now rewrite E.
  - intros Hm. unfold memory.Update in Hm.
    destruct (memory.orders r !! ID o) as [old|] eqn:E; [|discriminate].
    injection Hm as <-. simpl. repeat split.
    + eauto.
    + apply lookup_insert_eq.
    + intros id Hne. apply lookup_insert_ne. congruence.
  - intros Hp.
    unfold postgres.Update, postgres.Get, sql.QueryRowContext_Scan, sql.ExecContext in *.
    destruct (Err ctx') as [e|] eqn:Ectx; [discriminate|].
    destruct (sql.fault (postgres.db p)) as [e|] eqn:Ef; [discriminate|].
    simpl in Hp.
    destruct (sql.int4 (Quantity o)); simpl in Hp; [|discriminate].
    destruct (sql.table (postgres.db p) !! ID o) as [cols|] eqn:E;
      simpl in Hp; [|discriminate].
    injection Hp as <-. simpl. rewrite Ef. repeat split.
    + eauto.
    + apply lookup_insert_eq.
    + intros id Hne. apply lookup_insert_ne. congruence.
    + rewrite lookup_insert_eq. simpl. destruct o; reflexivity.
Qed.

Lemma update_changes_only_target_witness :
  let cancelled := {| ctx_done := Canceled; ctx_values := [] |} in
  let w := {| ID := "1"; Item := "Widget"; Quantity := 2 |} in
  let k := {| ID := "2"; Item := "Kettle"; Quantity := 1 |} in
  let big := {| ID := "1"; Item := "Gadget"; Quantity := 3000000000 |} in
  let o := {| ID := "1"; Item := "Gadget"; Quantity := 7 |} in
  let r := fst (memory.Create Background k (fst (memory.Create Background w memory.New))) in
  let p := fst (postgres.Create Background k
                  (fst (postgres.Create Background w
                          (postgres.New {| sql.table := ∅; sql.fault := None |})))) in
  (memory.orders (fst (memory.Update cancelled big r)) !! "1" = Some big /\
   memory.orders (fst (memory.Update cancelled big r)) !! "2" = Some k) /\
  postgres.Get Background "1" (fst (postgres.Update Background o p)) = (o, None).
Proof.
  intros cancelled w k big o r p. split.
  - destruct (update_changes_only_target cancelled Background big r
                (fst (memory.Update cancelled big r)) p p) as (_ & Hm & _).
    destruct Hm as (_ & H1 & H2); [vm_compute; reflexivity|].
    split; [exact H1|].
    etransitivity; [apply (H2 "2"); discriminate|]. vm_compute. reflexivity.
  - destruct (update_changes_only_target Background Background o r r p
                (fst (postgres.Update Background o p))) as (_ & _ & Hp).
    destruct Hp as (_ & _ & _ & H); [vm_compute; reflexivity|].
    exact H.
Defined.

(** ** Listing an empty store *)

(** C3: on a store that holds nothing, with a live context and a
    healthy connection, the in-memory [List] returns the empty, non-nil
    slice built by [make], whereas [List] of both SQL-backed variants
    returns the nil slice it declared with [var orders []order.Order] and
    never appended to; the list handler then writes that nil slice. *)
Theorem list_of_empty_store (ctx : Context) (r : memory.Repository) (d : sql.DB) :
  memory.orders r = ∅ ->
  sql.table d = ∅ ->
  Err ctx = None ->
  sql.fault d = None ->
  memory.List ctx r = (slice_of [], None) /\
  postgres.List ctx (postgres.New d) = (nil_slice, None) /\
  pgstore.List ctx (pgstore.NewPGStore d) = (nil_slice, None) /\
  is_nil (fst (postgres.List ctx (postgres.New d))) = true /\
  is_nil (fst (memory.List ctx r)) = false.
Proof.
  intros Hr Hd Hctx Hf.
  assert (Hmem : memory.List ctx r = (slice_of [], None)).
  { unfold memory.List. rewrite Hr, map_to_list_empty. reflexivity. }
  assert (Hpg : postgres.List ctx (postgres.New d) = (nil_slice, None)).
  { unfold postgres.List, sql.QueryContext. simpl.
    rewrite Hctx, Hf, Hd, map_to_list_empty. reflexivity. }
  assert (Hst : pgstore.List ctx (pgstore.NewPGStore d) = (nil_slice, None)).
  { unfold pgstore.List, sql.QueryContext. simpl.
    rewrite Hctx, Hf, Hd, map_to_list_empty. reflexivity. }
  rewrite Hmem, Hpg, Hst. repeat split.
Qed.

Lemma list_of_empty_store_witness :
  let d := {| sql.table := ∅; sql.fault := None |} in
  memory.List Background memory.New = (slice_of [], None) /\
  postgres.List Background (postgres.New d) = (nil_slice, None) /\
  snd (api.listOrdersHandler
         {| http.ctx := Background; http.cookies := []; http.vars := ∅;
            http.body := http.Decoded tt |}
         {| api.redisClient := redis.empty; api.repo := postgres.New d; api.now := 0 |})
  = {| http.status := http.StatusOK; http.written := http.json_orders nil_slice;
       http.set_cookies := [] |}.
Proof.
  intros d.
  destruct (list_of_empty_store Background memory.New d) as (Hm & Hp & _);
    try reflexivity.
  split; [exact Hm|]. split; [exact Hp|].
  unfold api.listOrdersHandler. simpl order.List. simpl http.ctx. simpl api.repo.
  rewrite Hp. reflexivity.
Defined.

(** ** Cancellation *)

(** The in-memory methods run to completion under a cancelled
    context: [Create] stores the order and returns nil, [Get] finds it,
    [List] lists it, [Update] replaces it and [Delete] removes it. *)
Lemma memory_runs_under_cancelled_context :
  let ctx := {| ctx_done := Canceled; ctx_values := [] |} in
  let o := {| ID := "1"; Item := "Widget"; Quantity := 2 |} in
  let o' := {| ID := "1"; Item := "Gadget"; Quantity := 3 |} in
  let r := {| memory.orders := {[ "1" := o ]} |} in
  Err ctx = Some context_Canceled /\
  memory.Create ctx o memory.New = (r, None) /\
  memory.Get ctx "1" r = (o, None) /\
  memory.List ctx r = (slice_of [o], None) /\
  memory.Update ctx o' r = ({| memory.orders := {[ "1" := o' ]} |}, None) /\
  memory.Delete ctx "1" r = (memory.New, None).
Proof. vm_compute. repeat split. Qed.

(** C8 (as the code has it): the in-memory methods never consult the
    context: each returns the same result and state for any two
    contexts, so never a cancellation error; the methods of the
    SQL-backed repository hand the context to the database call, and
    under a cancelled or expired context each returns that context's
    error, which is not [ErrNotFound], and leaves the table as it
    was. *)
Theorem cancellation_by_variant (ctx ctx' : Context) (e : error)
    (o : Order) (id : string) (r : memory.Repository) (p : postgres.Repository) :
  Err ctx = Some e ->
  (memory.Create ctx o r = memory.Create ctx' o r /\
   memory.Get ctx id r = memory.Get ctx' id r /\
   memory.List ctx r = memory.List ctx' r /\
   memory.Update ctx o r = memory.Update ctx' o r /\
   memory.Delete ctx id r = memory.Delete ctx' id r) /\
  (e <> ErrNotFound /\
   postgres.Create ctx o p = (p, Some e) /\
   snd (postgres.Get ctx id p) = Some e /\
   postgres.List ctx p = (nil_slice, Some e) /\
   postgres.Update ctx o p = (p, Some e) /\
   postgres.Delete ctx id p = (p, Some e)).
Proof.
  intros He. split; [repeat split|].
  assert (Hne : e <> ErrNotFound /\ e <> sql_ErrNoRows).
  { unfold Err in He. destruct (ctx_done ctx); inversion He; split; discriminate. }
  destruct Hne as [Hnf Hnr].
  unfold postgres.Create, postgres.Get, postgres.List, postgres.Update,
    postgres.Delete, sql.ExecContext, sql.QueryContext, sql.QueryRowContext_Scan.
  rewrite He. simpl.
  destruct p as [d]. simpl.
  rewrite decide_False by congruence.
  repeat split; assumption.
Qed.

Lemma cancellation_by_variant_witness :
  let ctx := {| ctx_done := DeadlineExceeded; ctx_values := [] |} in
  let o := {| ID := "1"; Item := "Widget"; Quantity := 2 |} in
  let p := postgres.New {| sql.table := ∅; sql.fault := None |} in
  memory.Create ctx o memory.New = memory.Create Background o memory.New /\
  postgres.Create ctx o p = (p, Some context_DeadlineExceeded).
Proof.
  intros ctx o p.
  destruct (cancellation_by_variant ctx Background context_DeadlineExceeded
              o "1" memory.New p) as [(Hm & _) (_ & Hp & _)].
  - reflexivity.
  - exact (conj Hm Hp).
Defined.

(** ** The session store, the gate and the login *)

Section session_facts.

Implicit Types (ctx : Context) (c : redis.Client) (key user : string) (t : Z).

(** [Get] answers a value exactly when the context is live, the
    store answers, and the key holds that value and has not expired. *)
Lemma redis_Get_ok ctx key t c user :
  redis.Get ctx key t c = (user, None) <->
  Err ctx = None /\ redis.fault c = None /\
  exists expires, redis.data c !! key = Some (user, expires) /\ (t < expires)%Z.
Proof.
  unfold redis.Get. split.
  - destruct (Err ctx); [discriminate|].
    destruct (redis.fault c); [discriminate|].
    destruct (redis.data c !! key) as [[v ex]|]; [|discriminate].
    destruct (Z.ltb_spec t ex); [|discriminate].
    intros [= ->]. eauto 6.
  - intros (-> & -> & ex & -> & Hlt).
    destruct (Z.ltb_spec t ex); [reflexivity|lia].
Qed.

(** A key that was never set, or whose time-to-live has elapsed, is
    answered with [redis.Nil]. *)
Lemma redis_Get_absent_or_expired ctx key t c :
  Err ctx = None -> redis.fault c = None ->
  (redis.data c !! key = None \/
   exists v expires, redis.data c !! key = Some (v, expires) /\ (expires <= t)%Z) ->
  redis.Get ctx key t c = ("", Some redis_Nil).
Proof.
  intros Hc Hf H. unfold redis.Get. rewrite Hc, Hf.
  destruct H as [-> | (v & ex & -> & Hle)]; [reflexivity|].
  destruct (Z.ltb_spec t ex); [lia|reflexivity].
Qed.

(** A value set with a time-to-live is read back until it expires. *)
Lemma redis_Get_after_Set ctx ctx' key user ttl t t' c c' :
  redis.Set_ ctx key user ttl t c = (c', None) ->
  Err ctx' = None -> (t' < t + ttl)%Z ->
  redis.Get ctx' key t' c' = (user, None).
Proof.
  unfold redis.Set_. intros HS Hc Hlt.
  destruct (Err ctx); [discriminate|].
  destruct (redis.fault c) eqn:Hf; [discriminate|].
  injection HS as <-.
  apply redis_Get_ok. repeat split; [assumption|].
  exists (t + ttl)%Z. split; [apply lookup_insert_eq|assumption].
Qed.

End session_facts.

(** With the cookie [session_id=abc] and an unexpired session
    [session:abc] whose stored user name is empty, the lookup succeeds
    and yet the gate answers 401 and does not run the next handler. *)
Lemma gate_rejects_resolved_empty_user :
  let c := {| redis.data := {[ "session:abc" := ("", 100%Z) ]}; redis.fault := None |} in
  let r := {| http.ctx := Background; http.cookies := [("session_id", "abc")];
              http.vars := ∅; http.body := http.Decoded tt |} in
  let w := {| api.redisClient := c; api.repo := 0; api.now := 0 |} in
  let next : api.Handler nat unit := fun r w =>
    (api.with_repo w (S (api.repo w)),
     {| http.status := http.StatusOK; http.written := http.no_body;
        http.set_cookies := [] |}) in
  http.Cookie_of r "session_id" = ("abc", None) /\
  redis.Get (http.ctx r) "session:abc" (api.now w) c = ("", None) /\
  api.authMiddleware next r w = (w, http.Error "unauthorized" http.StatusUnauthorized) /\
  api.authMiddleware next r w
    <> next (http.WithContext r (WithValue (http.ctx r) "user" "")) w.
Proof. vm_compute. repeat split. discriminate. Qed.

(** C6 (as the code has it): the gate takes one of three steps.
    Without a [session_id] cookie it answers 401 and leaves the world
    as it is, whatever the next handler is.  With the cookie, if the
    lookup of [session:<value>] fails, or succeeds with an empty user
    name, it answers 401 in the same way.  If the lookup succeeds with a
    non-empty user name, the outcome is that of one run of the next
    handler on the same world and on the request whose context carries
    that name under the key [user]. *)
Theorem gate_steps {R B : Type} (next : api.Handler R B)
    (r : http.Request B) (w : api.World R) :
  (snd (http.Cookie_of r "session_id") <> None ->
   api.authMiddleware next r w
   = (w, http.Error "unauthorized" http.StatusUnauthorized)) /\
  (forall c user e,
     http.Cookie_of r "session_id" = (c, None) ->
     redis.Get (http.ctx r) ("session:" ++ c) (api.now w) (api.redisClient w)
     = (user, Some e) ->
     api.authMiddleware next r w
     = (w, http.Error "unauthorized" http.StatusUnauthorized)) /\
  (forall c,
     http.Cookie_of r "session_id" = (c, None) ->
     redis.Get (http.ctx r) ("session:" ++ c) (api.now w) (api.redisClient w)
     = ("", None) ->
     api.authMiddleware next r w
     = (w, http.Error "unauthorized" http.StatusUnauthorized)) /\
  (forall c user,
     http.Cookie_of r "session_id" = (c, None) ->
     redis.Get (http.ctx r) ("session:" ++ c) (api.now w) (api.redisClient w)
     = (user, None) ->
     user <> "" ->
     let r' := http.WithContext r (WithValue (http.ctx r) "user" user) in
     api.authMiddleware next r w = next r' w /\
     Value (http.ctx r') "user" = Some user /\
     http.cookies r' = http.cookies r /\ http.vars r' = http.vars r /\
     http.body r' = http.body r).
Proof.
  unfold api.authMiddleware. split; [|split; [|split]].
  - destruct (http.Cookie_of r "session_id") as [c [e|]]; simpl; congruence.
  - intros c user e -> ->. reflexivity.
  - intros c -> ->. reflexivity.
  - intros c user -> -> Hne. simpl.
    destruct (String.eqb_spec user ""); [contradiction|].
    repeat split.
Qed.

Lemma gate_steps_witness :
  let c := {| redis.data := {[ "session:abc" := ("alice", 100%Z) ]}; redis.fault := None |} in
  let r := {| http.ctx := Background; http.cookies := [("session_id", "abc")];
              http.vars := ∅; http.body := http.Decoded tt |} in
  let w := {| api.redisClient := c; api.repo := 0; api.now := 0 |} in
  let next : api.Handler nat unit := fun r w =>
    (api.with_repo w (S (api.repo w)),
     {| http.status := http.StatusOK;
        http.written := http.text (default "" (Value (http.ctx r) "user"));
        http.set_cookies := [] |}) in
  api.authMiddleware next r w
  = (api.with_repo w 1,
     {| http.status := http.StatusOK; http.written := http.text "alice";
        http.set_cookies := [] |}).
Proof.
  intros c r w next.
  destruct (gate_steps next r w) as (_ & _ & _ & H).
  destruct (H "abc" "alice") as [-> _].
  - reflexivity.
  - vm_compute. reflexivity.
  - discriminate.
  - reflexivity.
Defined.

(** [strconv.FormatInt] writes at least one character. *)
Lemma FormatInt_nonempty (n : Z) : FormatInt n <> "".
Proof.
  assert (Hpos : forall p, NilEmpty.string_of_uint (Pos.to_uint p) <> "").
  { intros p. pose proof (Unsigned.to_uint_nonnil p) as Hp.
    destruct (Pos.to_uint p); [contradiction|discriminate..]. }
  unfold FormatInt. destruct n as [|p|p]; simpl.
  - discriminate.
  - apply Hpos.
  - discriminate.
Qed.

(** With a session store that does not answer, a login with a
    non-empty user name does not succeed: the handler answers 500 and no
    session exists afterwards. *)
Lemma login_fails_when_store_fails :
  let down := {| redis.data := ∅;
                 redis.fault := Some (other_error "dial tcp: connection refused") |} in
  let w := {| api.redisClient := down; api.repo := memory.New;
              api.now := 1700000000000000000%Z |} in
  let r : http.Request api.loginRequest :=
    {| http.ctx := Background; http.cookies := []; http.vars := ∅;
       http.body := http.Decoded {| api.Username := "demo"; api.Password := "demo" |} |} in
  api.loginHandler r w
  = (w, http.Error "session error" http.StatusInternalServerError) /\
  http.status (snd (api.loginHandler r w)) <> http.StatusOK /\
  redis.data (api.redisClient (fst (api.loginHandler r w))) = ∅.
Proof. vm_compute. repeat split. discriminate. Qed.

(** C7 (as the code has it): the login handler never looks at the
    password.  Two login requests that differ only in the password have
    the same outcome, response and world.  With an empty user name the
    answer is 400 and nothing is stored.  With a non-empty user name the
    outcome is decided by the session store alone: if its [Set]
    returns an error, the answer is 500 and no cookie is set; if the
    request context is live and the store answers, the answer is 200
    with a [session_id] cookie, and until the hour has passed the store
    resolves that cookie's value to the user name. *)
Theorem login_ignores_password {R : Type} (w : api.World R) (c : Context)
    (cs : list (string * string)) (vs : gmap string string) (u p1 p2 : string) :
  let login p : http.Request api.loginRequest :=
    {| http.ctx := c; http.cookies := cs; http.vars := vs;
       http.body := http.Decoded {| api.Username := u; api.Password := p |} |} in
  let sid := FormatInt (api.now w) in
  api.loginHandler (login p1) w = api.loginHandler (login p2) w /\
  (u = "" ->
   api.loginHandler (login p1) w
   = (w, http.Error "invalid credentials" http.StatusBadRequest)) /\
  (forall c' e, u <> "" ->
   redis.Set_ c ("session:" ++ sid) u Hour (api.now w) (api.redisClient w) = (c', Some e) ->
   api.loginHandler (login p1) w
   = (api.with_redis w c', http.Error "session error" http.StatusInternalServerError) /\
   http.status (snd (api.loginHandler (login p1) w)) = http.StatusInternalServerError /\
   http.set_cookies (snd (api.loginHandler (login p1) w)) = []) /\
  (u <> "" -> Err c = None -> redis.fault (api.redisClient w) = None ->
   let w' := fst (api.loginHandler (login p1) w) in
   snd (api.loginHandler (login p1) w)
   = {| http.status := http.StatusOK; http.written := http.no_body;
        http.set_cookies :=
          [ {| http.Name := "session_id"; http.Value := sid; http.Path := "/";
               http.Expires := (api.now w + Hour)%Z; http.HttpOnly := true |} ] |} /\
   api.repo w' = api.repo w /\
   forall c' t, Err c' = None -> (t < api.now w + Hour)%Z ->
     redis.Get c' ("session:" ++ sid) t (api.redisClient w') = (u, None)).
Proof.
  intros login sid. split; [reflexivity|]. split; [|split].
  - intros ->. reflexivity.
  - intros c' e Hu HS. unfold api.loginHandler, login.
    cbn [http.body http.ctx api.Username].
    destruct (String.eqb_spec u ""); [contradiction|].
    fold sid. rewrite HS. repeat split.
  - intros Hu Hc Hf w'.
    assert (HS : redis.Set_ c ("session:" ++ sid) u Hour (api.now w) (api.redisClient w)
                 = ({| redis.data := <[("session:" ++ sid)%string := (u, (api.now w + Hour)%Z)]>
                                       (redis.data (api.redisClient w));
                       redis.fault := redis.fault (api.redisClient w) |}, None)).
    { unfold redis.Set_. rewrite Hc, Hf. reflexivity. }
    subst w'. unfold api.loginHandler, login.
    cbn [http.body http.ctx api.Username].
    destruct (String.eqb_spec u ""); [contradiction|].
    fold sid. rewrite HS. simpl.
    repeat split.
    intros c' t Hc' Ht.
    eapply redis_Get_after_Set; eauto.
Qed.

Lemma login_ignores_password_witness :
  let w := {| api.redisClient := redis.empty; api.repo := memory.New;
              api.now := 1700000000000000000%Z |} in
  let login p : http.Request api.loginRequest :=
    {| http.ctx := Background; http.cookies := []; http.vars := ∅;
       http.body := http.Decoded {| api.Username := "demo"; api.Password := p |} |} in
  api.loginHandler (login "demo") w = api.loginHandler (login "wrong") w /\
  http.status (snd (api.loginHandler (login "demo") w)) = http.StatusOK /\
  redis.Get Background "session:1700000000000000000" 1700000000000000001%Z
    (api.redisClient (fst (api.loginHandler (login "demo") w))) = ("demo", None).
Proof.
  intros w login.
  destruct (login_ignores_password w Background [] ∅ "demo" "demo" "wrong")
    as (Heq & _ & _ & H).
  split; [exact Heq|].
  destruct H as (Hresp & _ & Hget); [discriminate|reflexivity|reflexivity|].
  split.
  - unfold login. rewrite Hresp. reflexivity.
  - apply (Hget Background 1700000000000000001%Z); [reflexivity|].
    vm_compute. reflexivity.
Defined.

(** ** The order handlers *)

Section handler_facts.

Context {R : Type} `{!order.Repository R}.

(** The create handler, once the body is decoded: the order is
    completed, handed to [Create], and echoed if that succeeds. *)
Lemma createOrderHandler_decoded (r : http.Request Order) (w : api.World R) (o : Order) :
  http.body r = http.Decoded o ->
  let o' := if String.eqb (ID o) "" then order.with_ID o (FormatInt (api.now w)) else o in
  api.createOrderHandler r w =
  (api.with_repo w (fst (order.Create (http.ctx r) o' (api.repo w))),
   match snd (order.Create (http.ctx r) o' (api.repo w)) with
   | Some e => http.Error (Error_string e) http.StatusInternalServerError
   | None => {| http.status := http.StatusCreated; http.written := http.json_order o';
                http.set_cookies := [] |}
   end).
Proof.
  intros Hb o'. unfold api.createOrderHandler. rewrite Hb. fold o'.
  destruct (order.Create (http.ctx r) o' (api.repo w)) as [rp [e|]]; reflexivity.
Qed.

(** The update handler, once the body is decoded. *)
Lemma updateOrderHandler_decoded (r : http.Request Order) (w : api.World R) (o : Order) :
  http.body r = http.Decoded o ->
  let o' := order.with_ID o (http.Var r "id") in
  api.updateOrderHandler r w =
  (api.with_repo w (fst (order.Update (http.ctx r) o' (api.repo w))),
   match snd (order.Update (http.ctx r) o' (api.repo w)) with
   | Some e => if decide (e = ErrNotFound) then http.NotFound
               else http.Error (Error_string e) http.StatusInternalServerError
   | None => {| http.status := http.StatusOK; http.written := http.json_order o';
                http.set_cookies := [] |}
   end).
Proof.
  intros Hb o'. unfold api.updateOrderHandler. rewrite Hb. fold o'.
  destruct (order.Update (http.ctx r) o' (api.repo w)) as [rp [e|]]; simpl;
    [destruct (decide (e = ErrNotFound))|]; reflexivity.
Qed.

End handler_facts.

(** C9: the create handler completes the decoded order before it
    stores it.  If the decoded identifier is empty, the identifier
    becomes the decimal text of the clock reading, which is never
    empty; otherwise the order is left as it is.  Item and quantity are
    never touched.  That completed order is the one handed to [Create]
    of whatever repository is installed, and the one echoed with status
    201 when [Create] succeeds; with the in-memory repository, [Get] of
    its identifier then returns it. *)
Theorem create_handler_assigns_id {R : Type} `{!order.Repository R}
    (c : Context) (cs : list (string * string)) (vs : gmap string string)
    (o : Order) (w : api.World R) (wm : api.World memory.Repository) :
  let r : http.Request Order :=
    {| http.ctx := c; http.cookies := cs; http.vars := vs; http.body := http.Decoded o |} in
  let completed t := if String.eqb (ID o) "" then order.with_ID o (FormatInt t) else o in
  (forall t, ID (completed t) <> "" /\
             Item (completed t) = Item o /\
             Quantity (completed t) = Quantity o /\
             (ID o = "" -> ID (completed t) = FormatInt t) /\
             (ID o <> "" -> completed t = o)) /\
  (api.repo (fst (api.createOrderHandler r w))
   = fst (order.Create c (completed (api.now w)) (api.repo w)) /\
   (snd (order.Create c (completed (api.now w)) (api.repo w)) = None ->
    snd (api.createOrderHandler r w)
    = {| http.status := http.StatusCreated;
         http.written := http.json_order (completed (api.now w));
         http.set_cookies := [] |})) /\
  (snd (api.createOrderHandler r wm)
   = {| http.status := http.StatusCreated;
        http.written := http.json_order (completed (api.now wm));
        http.set_cookies := [] |} /\
   forall c', memory.Get c' (ID (completed (api.now wm)))
                (api.repo (fst (api.createOrderHandler r wm)))
              = (completed (api.now wm), None)).
Proof.
  intros r completed. split; [|split].
  - intros t. unfold completed.
    destruct (String.eqb_spec (ID o) "") as [E|E]; simpl.
    + repeat split; try congruence. apply FormatInt_nonempty.
    + repeat split; congruence.
  - rewrite (createOrderHandler_decoded r w o eq_refl). simpl.
    split; [reflexivity|]. fold (completed (api.now w)). now intros ->.
  - rewrite (createOrderHandler_decoded r wm o eq_refl). simpl.
    fold (completed (api.now wm)). split; [reflexivity|].
    intros c'. apply memory_Get_Some. apply lookup_insert_eq.
Qed.

(** The scenario of the specification: an order without identifier
    is stored under the decimal text of the clock reading. *)
Example create_without_id :
  let r : http.Request Order :=
    {| http.ctx := Background; http.cookies := []; http.vars := ∅;
       http.body := http.Decoded {| ID := ""; Item := "Widget"; Quantity := 2 |} |} in
  let w := {| api.redisClient := redis.empty; api.repo := memory.New;
              api.now := 1700000000000000000%Z |} in
  memory.Get Background "1700000000000000000" (api.repo (fst (api.createOrderHandler r w)))
  = ({| ID := "1700000000000000000"; Item := "Widget"; Quantity := 2 |}, None).
Proof. vm_compute. reflexivity. Qed.

(** C10: the update handler ignores the identifier of the body.  Two
    bodies that differ only in their identifier have the same outcome;
    the order handed to [Update] is the decoded one with its identifier
    overwritten by the path variable [id], and that order is echoed with
    status 200 when [Update] succeeds (404 when it reports
    [ErrNotFound]).  With the in-memory repository a successful update
    rewrites the entry of the path identifier and no other entry. *)
Theorem update_handler_uses_path_id {R : Type} `{!order.Repository R}
    (c : Context) (cs : list (string * string)) (vs : gmap string string)
    (o : Order) (body_id : string)
    (w : api.World R) (wm : api.World memory.Repository) :
  let r b : http.Request Order :=
    {| http.ctx := c; http.cookies := cs; http.vars := vs; http.body := http.Decoded b |} in
  let id := default "" (vs !! "id") in
  let target := {| ID := id; Item := Item o; Quantity := Quantity o |} in
  api.updateOrderHandler (r (order.with_ID o body_id)) w = api.updateOrderHandler (r o) w /\
  (api.repo (fst (api.updateOrderHandler (r o) w)) = fst (order.Update c target (api.repo w)) /\
   (snd (order.Update c target (api.repo w)) = None ->
    snd (api.updateOrderHandler (r o) w)
    = {| http.status := http.StatusOK; http.written := http.json_order target;
         http.set_cookies := [] |}) /\
   (snd (order.Update c target (api.repo w)) = Some ErrNotFound ->
    snd (api.updateOrderHandler (r o) w) = http.NotFound)) /\
  (is_Some (memory.orders (api.repo wm) !! id) ->
   memory.orders (api.repo (fst (api.updateOrderHandler (r o) wm))) !! id = Some target /\
   forall id', id' <> id ->
     memory.orders (api.repo (fst (api.updateOrderHandler (r o) wm))) !! id'
     = memory.orders (api.repo wm) !! id').
Proof.
  intros r id target.
  assert (Hstep : forall (R' : Type) (H' : order.Repository R') (w' : api.World R') b,
             Item b = Item o -> Quantity b = Quantity o ->
             api.updateOrderHandler (r b) w' =
             (api.with_repo w' (fst (order.Update c target (api.repo w'))),
              match snd (order.Update c target (api.repo w')) with
              | Some e => if decide (e = ErrNotFound) then http.NotFound
                          else http.Error (Error_string e) http.StatusInternalServerError
              | None => {| http.status := http.StatusOK;
                           http.written := http.json_order target;
                           http.set_cookies := [] |}
              end)).
  { intros R' H' w' b Hi Hq.
    rewrite (updateOrderHandler_decoded (r b) w' b eq_refl).
    unfold order.with_ID, http.Var. simpl. rewrite Hi, Hq. reflexivity. }
  split; [|split].
  - rewrite !Hstep by reflexivity. reflexivity.
  - rewrite Hstep by reflexivity. simpl. repeat split.
    + now intros ->.
    + intros ->. simpl. reflexivity.
  - intros [old Hold]. rewrite Hstep by reflexivity. simpl.
    unfold memory.Update. simpl. rewrite Hold. simpl. split.
    + apply lookup_insert_eq.
    + intros id' Hne. apply lookup_insert_ne. congruence.
Qed.

Lemma update_handler_uses_path_id_witness :
  let a := {| ID := "1"; Item := "Widget"; Quantity := 2 |} in
  let b := {| ID := "2"; Item := "Kettle"; Quantity := 1 |} in
  let wm := {| api.redisClient := redis.empty;
               api.repo := {| memory.orders := {[ "1" := a; "2" := b ]} |};
               api.now := 0 |} in
  let r : http.Request Order :=
    {| http.ctx := Background; http.cookies := []; http.vars := {[ "id" := "1" ]};
       http.body := http.Decoded {| ID := "2"; Item := "Gadget"; Quantity := 9 |} |} in
  memory.orders (api.repo (fst (api.updateOrderHandler r wm))) !! "1"
  = Some {| ID := "1"; Item := "Gadget"; Quantity := 9 |} /\
  memory.orders (api.repo (fst (api.updateOrderHandler r wm))) !! "2" = Some b.
Proof.
  intros a b wm r.
  destruct (update_handler_uses_path_id Background [] {[ "id" := "1" ]}
              {| ID := "2"; Item := "Gadget"; Quantity := 9 |} "3" wm wm)
    as (_ & _ & H).
  destruct H as [H1 H2].
  - vm_compute. eauto.
  - split.
    + exact H1.
    + etransitivity; [apply (H2 "2"); vm_compute; discriminate|].
      vm_compute. reflexivity.
Defined.

(** * Further properties of the repositories *)

(** ** Slices built by repeated [append] *)

Section slice_facts.

Context {A B : Type} (f : B -> A).

(** Appending to a slice made by [make] (or to any non-nil slice). *)
Lemma foldl_append_slice_of (l : list B) (l0 : list A) :
  foldl (fun out x => append out (f x)) (slice_of l0) l = slice_of (l0 ++ map f l).
Proof.
  revert l0. induction l as [|x l IH]; intros l0; simpl.
  - now rewrite app_nil_r.
  - rewrite IH, <- app_assoc. reflexivity.
Qed.

(** Appending to a nil slice: nil stays nil only if nothing is
    appended. *)
Lemma foldl_append_nil_slice (l : list B) :
  foldl (fun out x => append out (f x)) nil_slice l
  = match l with [] => nil_slice | _ => slice_of (map f l) end.
Proof.
  destruct l as [|x l]; simpl; [reflexivity|].
  now rewrite foldl_append_slice_of.
Qed.

End slice_facts.

(** ** The in-memory repository, continued *)

Section memory_more.

Implicit Types (ctx : Context) (o : Order) (r : memory.Repository) (id : string).

Lemma memory_List_elems ctx r :
  memory.List ctx r = (slice_of (map snd (map_to_list (memory.orders r))), None).
Proof. unfold memory.List, make. now rewrite foldl_append_slice_of. Qed.

Lemma elem_of_map_snd_map_to_list (m : gmap string Order) o :
  o ∈ map snd (map_to_list m) <-> exists k, m !! k = Some o.
Proof.
  rewrite list_elem_of_In, in_map_iff. split.
  - intros ([k o'] & <- & Hin). exists k.
    apply elem_of_map_to_list. now apply list_elem_of_In.
  - intros [k Hk]. exists (k, o). split; [reflexivity|].
    apply list_elem_of_In. now apply elem_of_map_to_list.
Qed.

Lemma memory_step_keyed ctx c r : memory.keyed r -> memory.keyed (memory.step ctx c r).
Proof.
  intros Hk. destruct c as [o|o|id]; simpl.
  - intros k o'. simpl. rewrite lookup_insert. case_decide as E.
    + now intros [= <-].
    + apply Hk.
  - unfold memory.Update. destruct (memory.orders r !! ID o); simpl; [|exact Hk].
    intros k o'. simpl. rewrite lookup_insert. case_decide as E.
    + now intros [= <-].
    + apply Hk.
  - unfold memory.Delete. destruct (memory.orders r !! id); simpl; [|exact Hk].
    intros k o'. simpl. rewrite lookup_delete. case_decide as E.
    + discriminate.
    + apply Hk.
Qed.

End memory_more.

(** X1: in every state that a sequence of [Create], [Update] and
    [Delete] calls reaches from [New], each order is stored under its
    own identifier; so [Get(id)] either reports [ErrNotFound] or returns
    an order whose [ID] is [id]. *)
Theorem memory_reachable_keyed (ctx ctx' : Context) (cs : list memory.call) (id : string) :
  memory.keyed (memory.run ctx cs memory.New) /\
  (memory.Get ctx' id (memory.run ctx cs memory.New) = (order.zero, Some ErrNotFound) \/
   exists o, memory.Get ctx' id (memory.run ctx cs memory.New) = (o, None) /\ ID o = id).
Proof.
  assert (Hrun : forall cs r, memory.keyed r -> memory.keyed (memory.run ctx cs r)).
  { clear cs. induction cs as [|c cs IH]; intros r Hr; simpl; [exact Hr|].
    apply IH, memory_step_keyed, Hr. }
  assert (Hk : memory.keyed (memory.run ctx cs memory.New)).
  { apply Hrun. intros k o. simpl. now rewrite lookup_empty. }
  split; [exact Hk|].
  unfold memory.Get.
  destruct (memory.orders (memory.run ctx cs memory.New) !! id) as [o|] eqn:E.
  - right. exists o. split; [reflexivity|]. now apply Hk.
  - now left.
Qed.

(** X2: [List] never fails and never returns nil; it returns as many
    orders as the map has entries, and an order is listed exactly when
    it is stored under some identifier. *)
Theorem memory_List_lists_the_store (ctx : Context) (r : memory.Repository) (o : Order) :
  snd (memory.List ctx r) = None /\
  is_nil (fst (memory.List ctx r)) = false /\
  len (fst (memory.List ctx r)) = size (memory.orders r) /\
  (o ∈ elems_of (fst (memory.List ctx r)) <-> exists k, memory.orders r !! k = Some o).
Proof.
  rewrite memory_List_elems. simpl. repeat split.
  - now rewrite length_map, length_map_to_list.
  - apply elem_of_map_snd_map_to_list.
  - apply elem_of_map_snd_map_to_list.
Qed.

(** X3: a successful [Delete(id)] found [id] in the store; afterwards
    [Get(id)] reports [ErrNotFound], every other identifier reads as
    before, [List] is one order shorter and lists only orders that were
    stored under other identifiers. *)
Theorem memory_Delete_removes_only_target (ctx ctx' : Context) (id : string)
    (r r' : memory.Repository) :
  memory.Delete ctx id r = (r', None) ->
  is_Some (memory.orders r !! id) /\
  memory.Get ctx' id r' = (order.zero, Some ErrNotFound) /\
  (forall id', id' <> id -> memory.Get ctx' id' r' = memory.Get ctx' id' r) /\
  S (len (fst (memory.List ctx' r'))) = len (fst (memory.List ctx' r)) /\
  (forall o, o ∈ elems_of (fst (memory.List ctx' r')) ->
     exists k, k <> id /\ memory.orders r !! k = Some o).
Proof.
  unfold memory.Delete.
  destruct (memory.orders r !! id) as [old|] eqn:E; [|discriminate].
  intros [= <-]. rewrite !memory_List_elems. simpl.
  split; [eauto|]. split; [|split; [|split]].
  - apply memory_Get_None. simpl. apply lookup_delete_eq.
  - intros id' Hne. unfold memory.Get. simpl. now rewrite lookup_delete_ne.
  - rewrite !length_map, !length_map_to_list.
    rewrite map_size_delete_Some by eauto.
    pose proof (map_size_ne_0_lookup_2 (memory.orders r) id) as Hn.
    assert (size (memory.orders r) <> 0) by eauto. lia.
  - intros o Ho. apply elem_of_map_snd_map_to_list in Ho as [k Hk].
    exists k. rewrite lookup_delete in Hk. case_decide; [discriminate|].
    split; [congruence|exact Hk].
Qed.

Lemma memory_Delete_removes_only_target_witness :
  let a := {| ID := "1"; Item := "Widget"; Quantity := 2 |} in
  let b := {| ID := "2"; Item := "Kettle"; Quantity := 1 |} in
  let r := {| memory.orders := {[ "1" := a; "2" := b ]} |} in
  let r' := fst (memory.Delete Background "1" r) in
  memory.Get Background "1" r' = (order.zero, Some ErrNotFound) /\
  S (len (fst (memory.List Background r'))) = len (fst (memory.List Background r)).
Proof.
  intros a b r r'.
  destruct (memory_Delete_removes_only_target Background Background "1" r r')
    as (_ & H1 & _ & H2 & _).
  - vm_compute. reflexivity.
  - exact (conj H1 H2).
Defined.

(** X4: [Create] of an order whose identifier is not yet stored
    makes [List] one order longer and leaves every other identifier as
    it was, and a [Delete] of that identifier right after it succeeds
    and gives back exactly the state before the [Create]. *)
Theorem memory_Create_fresh_then_Delete (ctx ctx' : Context) (o : Order)
    (r : memory.Repository) :
  memory.orders r !! ID o = None ->
  len (fst (memory.List ctx' (fst (memory.Create ctx o r))))
  = S (len (fst (memory.List ctx' r))) /\
  (forall id, id <> ID o ->
     memory.Get ctx' id (fst (memory.Create ctx o r)) = memory.Get ctx' id r) /\
  memory.Delete ctx' (ID o) (fst (memory.Create ctx o r)) = (r, None).
Proof.
  intros Hfresh. rewrite !memory_List_elems. simpl. split; [|split].
  - rewrite !length_map, !length_map_to_list. now apply map_size_insert_None.
  - intros id Hne. unfold memory.Get. simpl.
    rewrite lookup_insert_ne by congruence. reflexivity.
  - unfold memory.Delete. simpl. rewrite lookup_insert_eq.
    rewrite delete_insert_id by exact Hfresh. now destruct r.
Qed.

Lemma memory_Create_fresh_then_Delete_witness :
  let a := {| ID := "1"; Item := "Widget"; Quantity := 2 |} in
  let b := {| ID := "2"; Item := "Kettle"; Quantity := 1 |} in
  let r := {| memory.orders := {[ "1" := a ]} |} in
  memory.Delete Background "2" (fst (memory.Create Background b r)) = (r, None).
Proof.
  intros a b r.
  apply (memory_Create_fresh_then_Delete Background Background b r).
  vm_compute. reflexivity.
Defined.

(** X5: the last write to an identifier wins.  After [Create(o)], a
    [Create] or an [Update] with another order of the same identifier
    succeeds and leaves the store exactly as a single [Create] of that
    other order would; in particular [Create(o)] twice is [Create(o)]
    once. *)
Theorem memory_last_write_wins (ctx ctx' : Context) (o o' : Order)
    (r : memory.Repository) :
  ID o' = ID o ->
  memory.Create ctx' o' (fst (memory.Create ctx o r)) = memory.Create ctx' o' r /\
  memory.Update ctx' o' (fst (memory.Create ctx o r)) = memory.Create ctx' o' r.
Proof.
  intros Hid. unfold memory.Update, memory.Create. simpl.
  rewrite Hid, lookup_insert_eq, insert_insert_eq. split; reflexivity.
Qed.

Lemma memory_last_write_wins_witness :
  let o := {| ID := "1"; Item := "Widget"; Quantity := 2 |} in
  let o' := {| ID := "1"; Item := "Gadget"; Quantity := 2 |} in
  memory.Update Background o' (fst (memory.Create Background o memory.New))
  = memory.Create Background o' memory.New.
Proof.
  intros o o'.
  apply (memory_last_write_wins Background Background o o' memory.New).
  reflexivity.
Defined.

(** X6: the scenario of [TestRepository], for any order and any new
    item label instead of the fixed ones.  On a new repository,
    [Create(o)] succeeds; [Get(o.ID)] returns [o]; [Update] with the
    item changed succeeds; [List] then has length one (and holds the
    updated order); [Delete(o.ID)] succeeds; a further [Get(o.ID)]
    fails, with [ErrNotFound], and the repository is empty again. *)
Theorem memory_test_scenario (ctx : Context) (o : Order) (item : string) :
  let o2 := {| ID := ID o; Item := item; Quantity := Quantity o |} in
  let r1 := fst (memory.Create ctx o memory.New) in
  let r2 := fst (memory.Update ctx o2 r1) in
  let r3 := fst (memory.Delete ctx (ID o) r2) in
  snd (memory.Create ctx o memory.New) = None /\
  memory.Get ctx (ID o) r1 = (o, None) /\
  snd (memory.Update ctx o2 r1) = None /\
  memory.List ctx r2 = (slice_of [o2], None) /\
  snd (memory.Delete ctx (ID o) r2) = None /\
  memory.Get ctx (ID o) r3 = (order.zero, Some ErrNotFound) /\
  r3 = memory.New.
Proof.
  intros o2 r1 r2 r3.
  assert (H2 : memory.Update ctx o2 r1 = ({| memory.orders := {[ ID o := o2 ]} |}, None)).
  { unfold memory.Update, r1. simpl. rewrite lookup_insert_eq, insert_insert_eq.
    reflexivity. }
  assert (H3 : memory.Delete ctx (ID o) r2 = (memory.New, None)).
  { unfold r2. rewrite H2. unfold memory.Delete. simpl.
    rewrite lookup_singleton_eq, delete_singleton_eq. reflexivity. }
  split; [reflexivity|]. split.
  { apply memory_Get_Some. simpl. apply lookup_insert_eq. }
  split; [now rewrite H2|]. split.
  { unfold r2. rewrite H2, memory_List_elems. simpl.
    change (<[ID o := o2]> ∅ : gmap string Order) with ({[ ID o := o2 ]} : gmap string Order).
    now rewrite map_to_list_singleton. }
  split; [now rewrite H3|].
  unfold r3. rewrite H3. split; [|reflexivity].
  apply memory_Get_None, lookup_empty.
Qed.

(** ** The first store, continued *)

(** X7: [Store.List] never returns nil, returns as many orders as
    the map has entries, and lists exactly the stored orders; on a new
    store that received one [Create(o)] it returns the one-element slice
    holding [o], which is what [TestStore] checks for its fixed order. *)
Theorem store_List_lists_the_store (s : store.Store) (o : Order) :
  is_nil (store.List s) = false /\
  len (store.List s) = size (store.orders s) /\
  (o ∈ elems_of (store.List s) <-> exists k, store.orders s !! k = Some o) /\
  store.List (store.Create o store.NewStore) = slice_of [o].
Proof.
  assert (HL : forall s, store.List s = slice_of (map snd (map_to_list (store.orders s)))).
  { intros s'. unfold store.List, make. now rewrite foldl_append_slice_of. }
  rewrite !HL. simpl. repeat split.
  - now rewrite length_map, length_map_to_list.
  - apply elem_of_map_snd_map_to_list.
  - apply elem_of_map_snd_map_to_list.
  - change (<[ID o := o]> ∅ : gmap string Order) with ({[ ID o := o ]} : gmap string Order).
    now rewrite map_to_list_singleton.
Qed.

(** ** The SQL-backed repository, continued *)

Section postgres_more.

Implicit Types (ctx : Context) (p : postgres.Repository) (rows : list sql.Row).

Lemma scan_all_ok rows final acc :
  Forall (fun row => snd (sql.Scan row) = None) rows ->
  postgres.scan_all rows final acc
  = (foldl (fun out row => append out (fst (sql.Scan row))) acc rows, final).
Proof.
  intros H. revert acc. induction H as [|row rows Hrow _ IH]; intros acc; simpl.
  - reflexivity.
  - destruct (sql.Scan row) as [o [e|]]; [discriminate|]. simpl. apply IH.
Qed.

Lemma scan_all_failed rows final acc pre bad post e :
  rows = pre ++ bad :: post ->
  Forall (fun row => snd (sql.Scan row) = None) pre ->
  snd (sql.Scan bad) = Some e ->
  postgres.scan_all rows final acc = (nil_slice, Some e).
Proof.
  intros -> Hpre Hbad. revert acc.
  induction Hpre as [|row pre Hrow _ IH]; intros acc; simpl.
  - destruct (sql.Scan bad) as [o [e'|]]; simpl in Hbad; congruence.
  - destruct (sql.Scan row) as [o [e'|]]; [discriminate|]. apply IH.
Qed.


Lemma run_non_null s t : sql.non_null t -> sql.non_null (fst (sql.run s t)).
Proof.
  intros Ht. unfold sql.run.
  assert (Hins : forall id item q, sql.non_null (<[id := (Some item, Some q)]> t)).
  { intros id item q k cols. rewrite lookup_insert. case_decide.
    - intros [= <-]. simpl. eauto.
    - apply Ht. }
  destruct s as [id item q|id item q|id].
  - destruct (sql.int4 q); simpl; [|exact Ht].
    destruct (t !! id); simpl; [exact Ht|apply Hins].
  - destruct (sql.int4 q); simpl; [|exact Ht].
    destruct (t !! id); simpl; [apply Hins|exact Ht].
  - destruct (t !! id); simpl; [|exact Ht].
    intros k cols. rewrite lookup_delete. case_decide; [discriminate|apply Ht].
Qed.

Lemma Scan_non_null k (cols : option string * option Z) :
  is_Some (fst cols) -> is_Some (snd cols) ->
  exists o, sql.Scan (k, fst cols, snd cols) = (o, None) /\
            ID o = k /\ sql.cols_of o = cols.
Proof.
  destruct cols as [[it|] [q|]]; simpl; intros [? ?] [? ?]; try discriminate.
  eexists. split; [reflexivity|]. split; reflexivity.
Qed.

Lemma table_rows_scan (t : gmap string (option string * option Z)) :
  sql.non_null t ->
  Forall (fun row => snd (sql.Scan row) = None) (sql.row_of <$> map_to_list t).
Proof.
  intros Hnn. apply Forall_forall. intros row Hin.
  apply list_elem_of_fmap in Hin as ([k cols] & -> & Hin).
  apply elem_of_map_to_list in Hin. destruct (Hnn k cols Hin) as [H1 H2].
  destruct (Scan_non_null k cols H1 H2) as (o' & HS & _).
  change (sql.row_of (k, cols)) with (k, fst cols, snd cols).
  now rewrite HS.
Qed.

Lemma table_rows_elem (t : gmap string (option string * option Z)) (o : Order) :
  sql.non_null t ->
  o ∈ map (fun row => fst (sql.Scan row)) (sql.row_of <$> map_to_list t)
  <-> t !! ID o = Some (sql.cols_of o).
Proof.
  intros Hnn. rewrite list_elem_of_In, in_map_iff. split.
  - intros (row & <- & Hin). apply list_elem_of_In in Hin.
    apply list_elem_of_fmap in Hin as ([k cols] & -> & Hin).
    apply elem_of_map_to_list in Hin. destruct (Hnn k cols Hin) as [H1 H2].
    destruct (Scan_non_null k cols H1 H2) as (o' & HS & Hid & Hcols).
    change (sql.row_of (k, cols)) with (k, fst cols, snd cols).
    rewrite HS. simpl. now rewrite Hid, Hcols.
  - intros Hrow. exists (sql.row_of (ID o, sql.cols_of o)). split.
    + destruct o; reflexivity.
    + apply list_elem_of_In, list_elem_of_fmap.
      exists (ID o, sql.cols_of o). split; [reflexivity|].
      now apply elem_of_map_to_list.
Qed.

(** The query of [List] on a live context and a healthy connection,
    over a table whose rows all scan. *)
Lemma List_query_scanned ctx (d : sql.DB) :
  Err ctx = None -> sql.fault d = None -> sql.non_null (sql.table d) ->
  match sql.QueryContext ctx d with
  | (_, Some err) => (nil_slice, Some err)
  | (rows, None) => postgres.scan_all (sql.remaining rows) (sql.rows_err rows) nil_slice
  end
  = (match sql.row_of <$> map_to_list (sql.table d) with
     | [] => nil_slice
     | rows => slice_of (map (fun row => fst (sql.Scan row)) rows)
     end, None).
Proof.
  intros Hc Hf Hnn. unfold sql.QueryContext. rewrite Hc, Hf. simpl.
  rewrite scan_all_ok by now apply table_rows_scan.
  rewrite foldl_append_nil_slice.
  now destruct (sql.row_of <$> map_to_list (sql.table d)).
Qed.

End postgres_more.

(** X8: the loop of the SQL-backed [List].  If every row scans, the
    result holds the scanned orders in the order of the rows, together
    with whatever [rows.Err()] reports at the end (so an iteration error
    comes back with the orders read so far), and it is nil exactly when
    there was no row.  If a row does not scan, the orders read before it
    are dropped: the result is nil with that row's error. *)
Theorem postgres_List_loop (rows : list sql.Row) (final : option error) :
  (Forall (fun row => snd (sql.Scan row) = None) rows ->
   postgres.scan_all rows final nil_slice
   = (match rows with
      | [] => nil_slice
      | _ => slice_of (map (fun row => fst (sql.Scan row)) rows)
      end, final)) /\
  (forall pre bad post e,
     rows = pre ++ bad :: post ->
     Forall (fun row => snd (sql.Scan row) = None) pre ->
     snd (sql.Scan bad) = Some e ->
     postgres.scan_all rows final nil_slice = (nil_slice, Some e)).
Proof.
  split.
  - intros H. rewrite scan_all_ok by exact H.
    now rewrite foldl_append_nil_slice.
  - intros pre bad post e. apply scan_all_failed.
Qed.

Lemma postgres_List_loop_witness :
  postgres.scan_all [("1", Some "Widget", Some 2%Z); ("2", None, Some 1%Z)] None nil_slice
  = (nil_slice, Some (sql.null_conversion "1" "item" "string")).
Proof.
  destruct (postgres_List_loop
              [("1", Some "Widget", Some 2%Z); ("2", None, Some 1%Z)] None) as [_ H].
  apply (H [("1", Some "Widget", Some 2%Z)] ("2", None, Some 1%Z) []).
  - reflexivity.
  - repeat constructor.
  - reflexivity.
Defined.

(** X9: on a live context, a healthy connection and a table without
    NULL cells, [List] returns no error and one order per row: an order
    is listed exactly when the table has its row, and the result is nil
    exactly when the table is empty. *)
Theorem postgres_List_all_rows (ctx : Context) (p : postgres.Repository) (o : Order) :
  Err ctx = None ->
  sql.fault (postgres.db p) = None ->
  sql.non_null (sql.table (postgres.db p)) ->
  snd (postgres.List ctx p) = None /\
  len (fst (postgres.List ctx p)) = size (sql.table (postgres.db p)) /\
  (o ∈ elems_of (fst (postgres.List ctx p))
   <-> sql.table (postgres.db p) !! ID o = Some (sql.cols_of o)) /\
  (is_nil (fst (postgres.List ctx p)) = true <-> sql.table (postgres.db p) = ∅).
Proof.
  intros Hc Hf Hnn. set (t := sql.table (postgres.db p)) in *.
  assert (HL := List_query_scanned ctx (postgres.db p) Hc Hf Hnn).
  fold (postgres.List ctx p) in HL. fold t in HL.
  assert (Hmem := table_rows_elem t o Hnn).
  assert (Hlen : length (sql.row_of <$> map_to_list t) = size t).
  { now rewrite length_fmap, length_map_to_list. }
  rewrite HL. simpl. split; [reflexivity|].
  destruct (sql.row_of <$> map_to_list t) as [|row rows'] eqn:Erows; simpl in *.
  - assert (Ht : t = ∅) by (apply map_size_empty_iff; lia).
    split; [lia|]. split; [|tauto].
    rewrite <- Hmem. split; [intros H; inversion H|intros H; inversion H].
  - split; [now rewrite length_map|]. split; [exact Hmem|].
    split; [discriminate|].
    intros Ht. apply map_size_empty_iff in Ht. lia.
Qed.

Lemma postgres_List_all_rows_witness :
  let o := {| ID := "1"; Item := "Widget"; Quantity := 2 |} in
  let p := postgres.New {| sql.table := {[ "1" := sql.cols_of o ]}; sql.fault := None |} in
  snd (postgres.List Background p) = None /\
  len (fst (postgres.List Background p)) = 1.
Proof.
  intros o p.
  destruct (postgres_List_all_rows Background p o) as (H1 & H2 & _).
  - reflexivity.
  - reflexivity.
  - intros k cols. simpl. rewrite lookup_singleton. case_decide; [|discriminate].
    intros [= <-]. simpl. eauto.
  - split; [exact H1|]. rewrite H2. vm_compute. reflexivity.
Defined.

(** X10: the repository never writes a NULL.  If no cell of the
    table is NULL before a [Create], an [Update] or a [Delete], none is
    afterwards, whatever the outcome of the call; on such tables the
    scan in [List] and [Get] cannot fail. *)
Theorem postgres_writes_no_null (ctx : Context) (o : Order) (id : string)
    (p : postgres.Repository) :
  sql.non_null (sql.table (postgres.db p)) ->
  sql.non_null (sql.table (postgres.db (fst (postgres.Create ctx o p)))) /\
  sql.non_null (sql.table (postgres.db (fst (postgres.Update ctx o p)))) /\
  sql.non_null (sql.table (postgres.db (fst (postgres.Delete ctx id p)))).
Proof.
  intros Hnn.
  assert (Hexec : forall s,
             sql.non_null (sql.table (fst (sql.ExecContext ctx s (postgres.db p))))).
  { intros s. unfold sql.ExecContext.
    destruct (Err ctx); [exact Hnn|].
    destruct (sql.fault (postgres.db p)); [exact Hnn|].
    pose proof (run_non_null s _ Hnn) as Hrun.
    destruct (sql.run s (sql.table (postgres.db p))) as [t res]. exact Hrun. }
  unfold postgres.Create, postgres.Update, postgres.Delete.
  split; [|split].
  - specialize (Hexec (sql.INSERT (ID o) (Item o) (Quantity o))).
    destruct (sql.ExecContext ctx _ (postgres.db p)) as [d [n e]]. exact Hexec.
  - specialize (Hexec (sql.UPDATE (ID o) (Item o) (Quantity o))).
    destruct (sql.ExecContext ctx _ (postgres.db p)) as [d [n [e|]]];
      [|destruct (n =? 0)%Z]; exact Hexec.
  - specialize (Hexec (sql.DELETE id)).
    destruct (sql.ExecContext ctx _ (postgres.db p)) as [d [n [e|]]];
      [|destruct (n =? 0)%Z]; exact Hexec.
Qed.

Lemma postgres_writes_no_null_witness :
  let o := {| ID := "1"; Item := "Widget"; Quantity := 2 |} in
  let p := postgres.New {| sql.table := ∅; sql.fault := None |} in
  sql.non_null (sql.table (postgres.db (fst (postgres.Create Background o p)))).
Proof.
  intros o p.
  apply (postgres_writes_no_null Background o "1" p).
  intros k cols. simpl. rewrite lookup_empty. discriminate.
Defined.



(** X13: a successful SQL-backed [Delete(id)] found the row of [id];
    afterwards [Get(id)] reports [ErrNotFound] and every other row is as
    it was. *)
Theorem postgres_Delete_removes_only_target (ctx : Context) (id : string)
    (p p' : postgres.Repository) :
  postgres.Delete ctx id p = (p', None) ->
  is_Some (sql.table (postgres.db p) !! id) /\
  postgres.Get ctx id p' = (order.zero, Some ErrNotFound) /\
  (forall id', id' <> id ->
     sql.table (postgres.db p') !! id' = sql.table (postgres.db p) !! id') /\
  (forall id', id' <> id -> postgres.Get ctx id' p' = postgres.Get ctx id' p).
Proof.
  unfold postgres.Delete, postgres.Get, sql.QueryRowContext_Scan, sql.ExecContext, sql.run.
  destruct (Err ctx) as [e|]; [discriminate|].
  destruct (sql.fault (postgres.db p)) as [e|] eqn:Hf; [discriminate|].
  destruct (sql.table (postgres.db p) !! id) as [cols|] eqn:Hrow; simpl; [|discriminate].
  intros [= <-]. simpl. rewrite Hf, lookup_delete_eq. simpl.
  split; [eauto|]. split; [reflexivity|]. split.
  - intros id' Hne. now rewrite lookup_delete_ne.
  - intros id' Hne. now rewrite lookup_delete_ne.
Qed.

Lemma postgres_Delete_removes_only_target_witness :
  let a := {| ID := "1"; Item := "Widget"; Quantity := 2 |} in
  let b := {| ID := "2"; Item := "Kettle"; Quantity := 1 |} in
  let p := postgres.New {| sql.table := {[ "1" := sql.cols_of a; "2" := sql.cols_of b ]};
                           sql.fault := None |} in
  let p' := fst (postgres.Delete Background "1" p) in
  postgres.Get Background "1" p' = (order.zero, Some ErrNotFound) /\
  postgres.Get Background "2" p' = (b, None).
Proof.
  intros a b p p'.
  destruct (postgres_Delete_removes_only_target Background "1" p p')
    as (_ & H1 & _ & H2).
  - vm_compute. reflexivity.
  - split; [exact H1|]. rewrite (H2 "2") by discriminate. vm_compute. reflexivity.
Defined.

(** A row-less identifier, on a live context and a healthy
    connection. *)
Lemma postgres_absent_id_witness :
  let o := {| ID := "missing"; Item := "Widget"; Quantity := 2 |} in
  let p := postgres.New {| sql.table := ∅; sql.fault := None |} in
  postgres.Get Background "missing" p = (order.zero, Some ErrNotFound) /\
  postgres.Update Background o p = (p, Some ErrNotFound) /\
  postgres.Delete Background "missing" p = (p, Some ErrNotFound).
Proof.
  intros o p.
  apply (postgres_absent_id Background p eq_refl eq_refl "missing" o); reflexivity.
Defined.

Lemma postgres_Create_Get_witness :
  let o := {| ID := "1"; Item := "Widget"; Quantity := 2 |} in
  let p := postgres.New {| sql.table := ∅; sql.fault := None |} in
  postgres.Get Background "1" (fst (postgres.Create Background o p)) = (o, None).
Proof.
  intros o p.
  apply (postgres_Create_Get Background p eq_refl eq_refl o (fst (postgres.Create Background o p))).
  vm_compute. reflexivity.
Defined.

(** * Further properties of the handlers and of the sessions *)

(** Different integers have different decimal texts. *)
Lemma FormatInt_inj (a b : Z) : FormatInt a = FormatInt b -> a = b.
Proof.
  unfold FormatInt. intros H.
  apply DecimalZ.to_int_inj.
  assert (Hs : Some (Z.to_int a) = Some (Z.to_int b)).
  { rewrite <- !NilEmpty.isi. now rewrite H. }
  now injection Hs.
Qed.

Lemma session_key_inj (a b : string) :
  ("session:" ++ a)%string = ("session:" ++ b)%string -> a = b.
Proof. cbn. intros H. now injection H. Qed.

Section gate_facts.

Context {R B : Type}.
Implicit Types (next : api.Handler R B) (r : http.Request B) (w : api.World R).

Lemma authMiddleware_no_cookie next r w :
  snd (http.Cookie_of r "session_id") <> None ->
  api.authMiddleware next r w = (w, http.Error "unauthorized" http.StatusUnauthorized).
Proof.
  unfold api.authMiddleware.
  destruct (http.Cookie_of r "session_id") as [c [e|]]; simpl; congruence.
Qed.

Lemma authMiddleware_lookup next r w c :
  http.Cookie_of r "session_id" = (c, None) ->
  api.authMiddleware next r w
  = match redis.Get (http.ctx r) ("session:" ++ c) (api.now w) (api.redisClient w) with
    | (_, Some _) => (w, http.Error "unauthorized" http.StatusUnauthorized)
    | (user, None) =>
        if String.eqb user "" then (w, http.Error "unauthorized" http.StatusUnauthorized)
        else next (http.WithContext r (WithValue (http.ctx r) "user" user)) w
    end.
Proof.
  unfold api.authMiddleware. intros ->.
  destruct (redis.Get _ _ _ _) as [user [e|]]; reflexivity.
Qed.

End gate_facts.

Section login_facts.

Context {R : Type}.

(** A login with a non-empty user name on a live context and a
    session store that answers. *)
Lemma loginHandler_accepts (w : api.World R) (r : http.Request api.loginRequest)
    (u pw : string) :
  http.body r = http.Decoded {| api.Username := u; api.Password := pw |} ->
  u <> "" -> Err (http.ctx r) = None -> redis.fault (api.redisClient w) = None ->
  api.loginHandler r w
  = (api.with_redis w
       {| redis.data := <[("session:" ++ FormatInt (api.now w))%string
                          := (u, (api.now w + Hour)%Z)]> (redis.data (api.redisClient w));
          redis.fault := None |},
     {| http.status := http.StatusOK; http.written := http.no_body;
        http.set_cookies :=
          [ {| http.Name := "session_id"; http.Value := FormatInt (api.now w);
               http.Path := "/"; http.Expires := (api.now w + Hour)%Z;
               http.HttpOnly := true |} ] |}).
Proof.
  intros Hb Hu Hc Hf. unfold api.loginHandler. rewrite Hb.
  cbn [api.Username]. destruct (String.eqb_spec u ""); [contradiction|].
  unfold redis.Set_. rewrite Hc, Hf. reflexivity.
Qed.

End login_facts.

(** X19: the life of a session.  After a login that succeeded at
    clock reading [t0], a request that carries the issued cookie (on a
    live context) passes the gate, with the user name of the login
    attached to its context, at every clock reading before [t0] plus one
    hour; from that instant on the same cookie is answered 401 and the
    next handler is not run. *)
Theorem session_lifecycle {R B : Type} (next : api.Handler R B) (w : api.World R)
    (login : http.Request api.loginRequest) (u pw : string)
    (r : http.Request B) (t : Z) :
  http.body login = http.Decoded {| api.Username := u; api.Password := pw |} ->
  u <> "" ->
  Err (http.ctx login) = None ->
  redis.fault (api.redisClient w) = None ->
  http.Cookie_of r "session_id" = (FormatInt (api.now w), None) ->
  Err (http.ctx r) = None ->
  let w1 := api.with_now (fst (api.loginHandler login w)) t in
  ((t < api.now w + Hour)%Z ->
   api.authMiddleware next r w1
   = next (http.WithContext r (WithValue (http.ctx r) "user" u)) w1) /\
  ((api.now w + Hour <= t)%Z ->
   api.authMiddleware next r w1
   = (w1, http.Error "unauthorized" http.StatusUnauthorized)).
Proof.
  intros Hb Hu Hc Hf Hcookie Hr w1.
  assert (HG : redis.Get (http.ctx r) ("session:" ++ FormatInt (api.now w)) t
                 (api.redisClient w1)
               = if (t <? api.now w + Hour)%Z then (u, None) else ("", Some redis_Nil)).
  { unfold w1. rewrite (loginHandler_accepts w login u pw Hb Hu Hc Hf). simpl.
    unfold redis.Get. rewrite Hr. simpl. now rewrite lookup_insert_eq. }
  rewrite (authMiddleware_lookup next r w1 _ Hcookie).
  change (api.now w1) with t. rewrite HG. split; intros Ht.
  - destruct (Z.ltb_spec t (api.now w + Hour)); [|lia].
    destruct (String.eqb_spec u ""); [contradiction|reflexivity].
  - destruct (Z.ltb_spec t (api.now w + Hour)); [lia|reflexivity].
Qed.

Lemma session_lifecycle_witness :
  let w := {| api.redisClient := redis.empty; api.repo := 0;
              api.now := 1700000000000000000%Z |} in
  let login : http.Request api.loginRequest :=
    {| http.ctx := Background; http.cookies := []; http.vars := ∅;
       http.body := http.Decoded {| api.Username := "demo"; api.Password := "demo" |} |} in
  let r : http.Request unit :=
    {| http.ctx := Background; http.cookies := [("session_id", "1700000000000000000")];
       http.vars := ∅; http.body := http.Decoded tt |} in
  let next : api.Handler nat unit := fun r w =>
    (api.with_repo w (S (api.repo w)),
     {| http.status := http.StatusOK;
        http.written := http.text (default "" (Value (http.ctx r) "user"));
        http.set_cookies := [] |}) in
  let w1 := api.with_now (fst (api.loginHandler login w)) (1700000000000000000 + Hour)%Z in
  api.authMiddleware next r w1
  = (w1, http.Error "unauthorized" http.StatusUnauthorized).
Proof.
  intros w login r next w1.
  destruct (session_lifecycle next w login "demo" "demo" r
              (1700000000000000000 + Hour)%Z) as [_ H];
    [reflexivity|discriminate|reflexivity|reflexivity|reflexivity|reflexivity|].
  apply H. vm_compute. discriminate.
Defined.

(** X20: two logins at the same clock reading get the same session
    identifier.  If a second user logs in at the reading of the first
    login, the second cookie has the value of the first, and the session
    store then resolves that value to the second user: the first user's
    cookie now passes for the second user. *)
Theorem login_same_instant_collision {R : Type} (w : api.World R)
    (l1 l2 : http.Request api.loginRequest) (u1 u2 pw1 pw2 : string) :
  http.body l1 = http.Decoded {| api.Username := u1; api.Password := pw1 |} ->
  http.body l2 = http.Decoded {| api.Username := u2; api.Password := pw2 |} ->
  u1 <> "" -> u2 <> "" ->
  Err (http.ctx l1) = None -> Err (http.ctx l2) = None ->
  redis.fault (api.redisClient w) = None ->
  let w1 := fst (api.loginHandler l1 w) in
  let w2 := fst (api.loginHandler l2 w1) in
  http.set_cookies (snd (api.loginHandler l2 w1))
  = http.set_cookies (snd (api.loginHandler l1 w)) /\
  (forall c t, Err c = None -> (t < api.now w + Hour)%Z ->
     redis.Get c ("session:" ++ FormatInt (api.now w)) t (api.redisClient w1) = (u1, None) /\
     redis.Get c ("session:" ++ FormatInt (api.now w)) t (api.redisClient w2) = (u2, None)).
Proof.
  intros Hb1 Hb2 Hu1 Hu2 Hc1 Hc2 Hf w1 w2.
  assert (E1 := loginHandler_accepts w l1 u1 pw1 Hb1 Hu1 Hc1 Hf).
  assert (E2 : api.loginHandler l2 w1 = _)
    by (apply (loginHandler_accepts w1 l2 u2 pw2 Hb2 Hu2 Hc2);
        unfold w1; now rewrite E1).
  unfold w2. rewrite E2. unfold w1. rewrite E1. simpl. split; [reflexivity|].
  intros c t Hc Ht. unfold redis.Get. rewrite Hc. simpl.
  rewrite !lookup_insert_eq.
  destruct (Z.ltb_spec t (api.now w + Hour)); [|lia]. split; reflexivity.
Qed.

Lemma login_same_instant_collision_witness :
  let w := {| api.redisClient := redis.empty; api.repo := 0;
              api.now := 1700000000000000000%Z |} in
  let login u : http.Request api.loginRequest :=
    {| http.ctx := Background; http.cookies := []; http.vars := ∅;
       http.body := http.Decoded {| api.Username := u; api.Password := "pw" |} |} in
  let w2 := fst (api.loginHandler (login "bob") (fst (api.loginHandler (login "alice") w))) in
  redis.Get Background "session:1700000000000000000" 1700000000000000005%Z
    (api.redisClient w2) = ("bob", None).
Proof.
  intros w login w2.
  destruct (login_same_instant_collision w (login "alice") (login "bob")
              "alice" "bob" "pw" "pw") as [_ H];
    [reflexivity|reflexivity|discriminate|discriminate|reflexivity|reflexivity|reflexivity|].
  destruct (H Background 1700000000000000005%Z) as [_ H2].
  - reflexivity.
  - vm_compute. reflexivity.
  - exact H2.
Defined.

(** X21: logins at different clock readings do not disturb each
    other.  A later login at another reading gets another session
    identifier, and the session of the earlier login still resolves to
    its own user until it expires. *)
Theorem logins_at_distinct_instants_coexist {R : Type} (w : api.World R)
    (l1 l2 : http.Request api.loginRequest) (u1 u2 pw1 pw2 : string) (t2 : Z) :
  http.body l1 = http.Decoded {| api.Username := u1; api.Password := pw1 |} ->
  http.body l2 = http.Decoded {| api.Username := u2; api.Password := pw2 |} ->
  u1 <> "" -> u2 <> "" ->
  Err (http.ctx l1) = None -> Err (http.ctx l2) = None ->
  redis.fault (api.redisClient w) = None ->
  t2 <> api.now w ->
  let w1 := api.with_now (fst (api.loginHandler l1 w)) t2 in
  let w2 := fst (api.loginHandler l2 w1) in
  FormatInt t2 <> FormatInt (api.now w) /\
  (forall c t, Err c = None -> (t < api.now w + Hour)%Z ->
     redis.Get c ("session:" ++ FormatInt (api.now w)) t (api.redisClient w2) = (u1, None)) /\
  (forall c t, Err c = None -> (t < t2 + Hour)%Z ->
     redis.Get c ("session:" ++ FormatInt t2) t (api.redisClient w2) = (u2, None)).
Proof.
  intros Hb1 Hb2 Hu1 Hu2 Hc1 Hc2 Hf Ht2 w1 w2.
  assert (Hne : FormatInt t2 <> FormatInt (api.now w)).
  { intros H. now apply FormatInt_inj in H. }
  assert (E1 := loginHandler_accepts w l1 u1 pw1 Hb1 Hu1 Hc1 Hf).
  assert (E2 : api.loginHandler l2 w1 = _)
    by (apply (loginHandler_accepts w1 l2 u2 pw2 Hb2 Hu2 Hc2);
        unfold w1; now rewrite E1).
  split; [exact Hne|].
  unfold w2. rewrite E2. unfold w1. rewrite E1. simpl.
  split; intros c t Hc Ht; unfold redis.Get; rewrite Hc; simpl.
  - rewrite lookup_insert_ne, lookup_insert_eq.
    + destruct (Z.ltb_spec t (api.now w + Hour)); [reflexivity|lia].
    + intros H. apply session_key_inj in H. contradiction.
  - rewrite lookup_insert_eq.
    destruct (Z.ltb_spec t (t2 + Hour)); [reflexivity|lia].
Qed.

Lemma logins_at_distinct_instants_coexist_witness :
  let w := {| api.redisClient := redis.empty; api.repo := 0;
              api.now := 1700000000000000000%Z |} in
  let login u : http.Request api.loginRequest :=
    {| http.ctx := Background; http.cookies := []; http.vars := ∅;
       http.body := http.Decoded {| api.Username := u; api.Password := "pw" |} |} in
  let w1 := api.with_now (fst (api.loginHandler (login "alice") w)) 1700000000000000007%Z in
  let w2 := fst (api.loginHandler (login "bob") w1) in
  redis.Get Background "session:1700000000000000000" 1700000000000000009%Z
    (api.redisClient w2) = ("alice", None).
Proof.
  intros w login w1 w2.
  destruct (logins_at_distinct_instants_coexist w (login "alice") (login "bob")
              "alice" "bob" "pw" "pw" 1700000000000000007%Z) as (_ & H & _);
    [reflexivity|reflexivity|discriminate|discriminate|reflexivity|reflexivity|reflexivity
    |discriminate|].
  apply (H Background 1700000000000000009%Z); [reflexivity|].
  vm_compute. reflexivity.
Defined.

Section handler_more.

Lemma with_repo_same {R : Type} (w : api.World R) : api.with_repo w (api.repo w) = w.
Proof. now destruct w. Qed.

(** The SQL-backed methods look at the context only through
    [ctx.Err()]. *)
Lemma postgres_ctx_Err (c1 c2 : Context) (p : postgres.Repository) (o : Order) (id : string) :
  Err c1 = Err c2 ->
  postgres.Create c1 o p = postgres.Create c2 o p /\
  postgres.Get c1 id p = postgres.Get c2 id p /\
  postgres.List c1 p = postgres.List c2 p /\
  postgres.Update c1 o p = postgres.Update c2 o p /\
  postgres.Delete c1 id p = postgres.Delete c2 id p.
Proof.
  intros H.
  unfold postgres.Create, postgres.Get, postgres.List, postgres.Update, postgres.Delete,
    sql.ExecContext, sql.QueryContext, sql.QueryRowContext_Scan.
  rewrite H. repeat split.
Qed.

End handler_more.



(** X17: the answers of the handlers over the in-memory repository.
    GET of a stored identifier answers 200 with the stored order, of
    another 404, in both cases without touching the world.  DELETE of a
    stored identifier answers 204 and removes exactly that entry, of
    another 404 with the world untouched.  PUT of a stored identifier
    answers 200 with the body's order under the path identifier and
    stores it, of another 404 with the world untouched.  The list
    handler answers 200 with a non-nil list of as many orders as are
    stored. *)
Theorem memory_api_answers (r : http.Request Order) (w : api.World memory.Repository) :
  let id := http.Var r "id" in
  let stored := memory.orders (api.repo w) in
  (forall o, stored !! id = Some o ->
     api.getOrderHandler r w
     = (w, {| http.status := http.StatusOK; http.written := http.json_order o;
              http.set_cookies := [] |}) /\
     api.deleteOrderHandler r w
     = (api.with_repo w {| memory.orders := delete id stored |},
        {| http.status := http.StatusNoContent; http.written := http.no_body;
           http.set_cookies := [] |})) /\
  (forall o b, stored !! id = Some o -> http.body r = http.Decoded b ->
     api.updateOrderHandler r w
     = (api.with_repo w {| memory.orders := <[id := order.with_ID b id]> stored |},
        {| http.status := http.StatusOK; http.written := http.json_order (order.with_ID b id);
           http.set_cookies := [] |})) /\
  (stored !! id = None ->
     api.getOrderHandler r w = (w, http.NotFound) /\
     api.deleteOrderHandler r w = (w, http.NotFound) /\
     forall b, http.body r = http.Decoded b ->
       api.updateOrderHandler r w = (w, http.NotFound)) /\
  (exists os, api.listOrdersHandler r w
              = (w, {| http.status := http.StatusOK;
                       http.written := http.json_orders (slice_of os);
                       http.set_cookies := [] |}) /\
              length os = size stored).
Proof.
  intros id stored. split; [|split; [|split]].
  - intros o Ho. split.
    + unfold api.getOrderHandler. simpl order.Get. fold id.
      now rewrite (memory_Get_Some _ id _ o Ho).
    + unfold api.deleteOrderHandler. simpl order.Delete. fold id.
      unfold memory.Delete. fold stored. now rewrite Ho.
  - intros o b Ho Hb. unfold api.updateOrderHandler. rewrite Hb. fold id.
    simpl order.Update. unfold memory.Update. simpl ID. fold stored. now rewrite Ho.
  - intros Hno. split; [|split].
    + unfold api.getOrderHandler. simpl order.Get. fold id.
      now rewrite (memory_Get_None _ id _ Hno).
    + unfold api.deleteOrderHandler. simpl order.Delete. fold id.
      unfold memory.Delete. fold stored. rewrite Hno. simpl.
      now rewrite with_repo_same.
    + intros b Hb. unfold api.updateOrderHandler. rewrite Hb. fold id.
      simpl order.Update. unfold memory.Update. simpl ID. fold stored. rewrite Hno.
      simpl. now rewrite with_repo_same.
  - exists (map snd (map_to_list stored)). split.
    + unfold api.listOrdersHandler. simpl order.List. now rewrite memory_List_elems.
    + now rewrite length_map, length_map_to_list.
Qed.

Lemma memory_api_answers_witness :
  let a := {| ID := "1"; Item := "Widget"; Quantity := 2 |} in
  let w := {| api.redisClient := redis.empty;
              api.repo := {| memory.orders := {[ "1" := a ]} |}; api.now := 0 |} in
  let r id : http.Request Order :=
    {| http.ctx := Background; http.cookies := []; http.vars := {[ "id" := id ]};
       http.body := http.Decoded order.zero |} in
  snd (api.getOrderHandler (r "1") w)
  = {| http.status := http.StatusOK; http.written := http.json_order a;
       http.set_cookies := [] |} /\
  api.deleteOrderHandler (r "2") w = (w, http.NotFound).
Proof.
  intros a w r.
  destruct (memory_api_answers (r "1") w) as (H1 & _).
  destruct (memory_api_answers (r "2") w) as (_ & _ & H2 & _).
  destruct (H1 a) as [-> _]; [vm_compute; reflexivity|].
  destruct H2 as (_ & -> & _); [vm_compute; reflexivity|].
  split; reflexivity.
Defined.

(** X18: all five [/orders] routes sit behind the gate.  Without a
    [session_id] cookie, or with one whose session lookup fails, every
    route answers 401 whatever the repository, and the world, the
    repository included, is left as it was.  With a cookie whose session
    resolves to a non-empty user name, every route over the in-memory
    and over the SQL-backed repository has exactly the outcome of its
    handler run without the gate: the user name that the gate attaches
    to the context plays no part in what the handlers do. *)
Theorem orders_api_session_gate {R : Type} `{!order.Repository R}
    (rt : api.OrderRoute) (r : http.Request Order)
    (w : api.World R) (wm : api.World memory.Repository)
    (wp : api.World postgres.Repository) :
  (snd (http.Cookie_of r "session_id") <> None ->
   api.orders_api rt r w = (w, http.Error "unauthorized" http.StatusUnauthorized)) /\
  (forall c, http.Cookie_of r "session_id" = (c, None) ->
     snd (redis.Get (http.ctx r) ("session:" ++ c) (api.now w) (api.redisClient w)) <> None ->
     api.orders_api rt r w = (w, http.Error "unauthorized" http.StatusUnauthorized)) /\
  (forall c user, http.Cookie_of r "session_id" = (c, None) -> user <> "" ->
     redis.Get (http.ctx r) ("session:" ++ c) (api.now wm) (api.redisClient wm) = (user, None) ->
     api.orders_api rt r wm = api.order_handler rt r wm) /\
  (forall c user, http.Cookie_of r "session_id" = (c, None) -> user <> "" ->
     redis.Get (http.ctx r) ("session:" ++ c) (api.now wp) (api.redisClient wp) = (user, None) ->
     api.orders_api rt r wp = api.order_handler rt r wp).
Proof.
  unfold api.orders_api. split; [|split; [|split]].
  - apply authMiddleware_no_cookie.
  - intros c Hc Hg. rewrite (authMiddleware_lookup _ r w c Hc).
    destruct (redis.Get _ _ _ _) as [user [e|]]; [reflexivity|contradiction].
  - intros c user Hc Hu Hg. rewrite (authMiddleware_lookup _ r wm c Hc), Hg.
    destruct (String.eqb_spec user ""); [contradiction|].
    destruct rt; reflexivity.
  - intros c user Hc Hu Hg. rewrite (authMiddleware_lookup _ r wp c Hc), Hg.
    destruct (String.eqb_spec user ""); [contradiction|].
    set (r' := http.WithContext r (WithValue (http.ctx r) "user" user)).
    assert (Hpg := fun o id =>
              postgres_ctx_Err (WithValue (http.ctx r) "user" user) (http.ctx r)
                               (api.repo wp) o id eq_refl).
    destruct rt; simpl.
    + unfold api.createOrderHandler. simpl order.Create.
      change (http.body r') with (http.body r).
      destruct (http.body r) as [b|e]; [|reflexivity].
      set (o := if String.eqb (ID b) "" then _ else b).
      destruct (Hpg o "") as (-> & _). reflexivity.
    + unfold api.listOrdersHandler. simpl order.List.
      destruct (Hpg order.zero "") as (_ & _ & -> & _). reflexivity.
    + unfold api.getOrderHandler. simpl order.Get.
      change (http.Var r' "id") with (http.Var r "id").
      destruct (Hpg order.zero (http.Var r "id")) as (_ & -> & _). reflexivity.
    + unfold api.updateOrderHandler. simpl order.Update.
      change (http.body r') with (http.body r).
      change (http.Var r' "id") with (http.Var r "id").
      destruct (http.body r) as [b|e]; [|reflexivity].
      destruct (Hpg (order.with_ID b (http.Var r "id")) "") as (_ & _ & _ & -> & _).
      reflexivity.
    + unfold api.deleteOrderHandler. simpl order.Delete.
      change (http.Var r' "id") with (http.Var r "id").
      destruct (Hpg order.zero (http.Var r "id")) as (_ & _ & _ & _ & ->).
      reflexivity.
Qed.

Lemma orders_api_session_gate_witness :
  let a := {| ID := "1"; Item := "Widget"; Quantity := 2 |} in
  let wm := {| api.redisClient := redis.empty;
               api.repo := {| memory.orders := {[ "1" := a ]} |}; api.now := 0 |} in
  let r : http.Request Order :=
    {| http.ctx := Background; http.cookies := []; http.vars := {[ "id" := "1" ]};
       http.body := http.Decoded order.zero |} in
  api.orders_api api.DELETE_order r wm
  = (wm, http.Error "unauthorized" http.StatusUnauthorized).
Proof.
  intros a wm r.
  destruct (orders_api_session_gate api.DELETE_order r wm wm
              {| api.redisClient := redis.empty;
                 api.repo := postgres.New {| sql.table := ∅; sql.fault := None |};
                 api.now := 0 |}) as [H _].
  apply H. vm_compute. discriminate.
Defined.

(** X22: the identifier that the create handler generates is the
    clock reading, so two orders posted without identifier at the same
    reading get the same identifier.  Over the in-memory repository both
    requests are answered 201, but afterwards only the second order is
    stored under that identifier and the list is no longer than after
    the first request. *)
Theorem create_same_instant_collision (w : api.World memory.Repository)
    (r1 r2 : http.Request Order) (o1 o2 : Order) :
  http.body r1 = http.Decoded o1 -> http.body r2 = http.Decoded o2 ->
  ID o1 = "" -> ID o2 = "" ->
  let sid := FormatInt (api.now w) in
  let w1 := fst (api.createOrderHandler r1 w) in
  let w2 := fst (api.createOrderHandler r2 w1) in
  snd (api.createOrderHandler r1 w)
  = {| http.status := http.StatusCreated; http.written := http.json_order (order.with_ID o1 sid);
       http.set_cookies := [] |} /\
  snd (api.createOrderHandler r2 w1)
  = {| http.status := http.StatusCreated; http.written := http.json_order (order.with_ID o2 sid);
       http.set_cookies := [] |} /\
  memory.Get Background sid (api.repo w1) = (order.with_ID o1 sid, None) /\
  memory.Get Background sid (api.repo w2) = (order.with_ID o2 sid, None) /\
  len (fst (memory.List Background (api.repo w2)))
  = len (fst (memory.List Background (api.repo w1))).
Proof.
  intros Hb1 Hb2 Hi1 Hi2 sid w1 w2.
  assert (E1 : api.createOrderHandler r1 w
               = (api.with_repo w {| memory.orders :=
                                       <[sid := order.with_ID o1 sid]> (memory.orders (api.repo w)) |},
                  {| http.status := http.StatusCreated;
                     http.written := http.json_order (order.with_ID o1 sid);
                     http.set_cookies := [] |})).
  { unfold api.createOrderHandler. rewrite Hb1, Hi1. reflexivity. }
  assert (E2 : api.createOrderHandler r2 w1
               = (api.with_repo w1 {| memory.orders :=
                                        <[sid := order.with_ID o2 sid]> (memory.orders (api.repo w1)) |},
                  {| http.status := http.StatusCreated;
                     http.written := http.json_order (order.with_ID o2 sid);
                     http.set_cookies := [] |})).
  { unfold api.createOrderHandler. rewrite Hb2, Hi2. unfold w1. rewrite E1. reflexivity. }
  unfold w2. rewrite E2. unfold w1. rewrite E1.
  rewrite !memory_List_elems. simpl.
  split; [reflexivity|]. split; [reflexivity|]. split; [|split].
  - apply memory_Get_Some. simpl. apply lookup_insert_eq.
  - apply memory_Get_Some. simpl. apply lookup_insert_eq.
  - rewrite !length_map, !length_map_to_list.
    apply map_size_insert_Some. rewrite lookup_insert_eq. eauto.
Qed.

Lemma create_same_instant_collision_witness :
  let w := {| api.redisClient := redis.empty; api.repo := memory.New;
              api.now := 1700000000000000000%Z |} in
  let post item : http.Request Order :=
    {| http.ctx := Background; http.cookies := []; http.vars := ∅;
       http.body := http.Decoded {| ID := ""; Item := item; Quantity := 1 |} |} in
  let w2 := fst (api.createOrderHandler (post "Kettle")
                   (fst (api.createOrderHandler (post "Widget") w))) in
  memory.Get Background "1700000000000000000" (api.repo w2)
  = ({| ID := "1700000000000000000"; Item := "Kettle"; Quantity := 1 |}, None).
Proof.
  intros w post w2.
  destruct (create_same_instant_collision w (post "Widget") (post "Kettle")
              {| ID := ""; Item := "Widget"; Quantity := 1 |}
              {| ID := ""; Item := "Kettle"; Quantity := 1 |})
    as (_ & _ & _ & H & _); [reflexivity|reflexivity|reflexivity|reflexivity|].
  exact H.
Defined.

(** ** [order.PGStore] *)

(** X23: on a table without NULL cells, a [PGStore.Create] that
    returns no error found no row under the order's identifier, and a
    [List] on the same context then returns no error and a non-nil
    slice that holds the order and is one longer than the table was
    before. *)
Theorem pgstore_Create_then_List (ctx : Context) (s s' : pgstore.PGStore) (o : Order) :
  sql.non_null (sql.table (pgstore.db s)) ->
  pgstore.Create ctx o s = (s', None) ->
  sql.table (pgstore.db s) !! ID o = None /\
  snd (pgstore.List ctx s') = None /\
  is_nil (fst (pgstore.List ctx s')) = false /\
  o ∈ elems_of (fst (pgstore.List ctx s')) /\
  len (fst (pgstore.List ctx s')) = S (size (sql.table (pgstore.db s))).
Proof.
  intros Hnn. unfold pgstore.Create, sql.ExecContext.
  destruct (Err ctx) as [e|] eqn:Hc; [discriminate|].
  destruct (sql.fault (pgstore.db s)) as [e|] eqn:Hf; [discriminate|].
  pose proof (run_non_null (sql.INSERT (ID o) (Item o) (Quantity o)) _ Hnn) as Hnn'.
  unfold sql.run in *.
  destruct (sql.int4 (Quantity o)); simpl in *; [|discriminate].
  destruct (sql.table (pgstore.db s) !! ID o) eqn:Hrow; simpl in *; [discriminate|].
  intros [= <-]. split; [reflexivity|].
  set (t' := <[ID o := (Some (Item o), Some (Quantity o))]> (sql.table (pgstore.db s))) in *.
  unfold pgstore.List. cbn [pgstore.db].
  rewrite (List_query_scanned ctx (sql.with_table (pgstore.db s) t') Hc Hf Hnn').
  cbn [sql.table sql.with_table].
  assert (Hmem : o ∈ map (fun row => fst (sql.Scan row)) (sql.row_of <$> map_to_list t')).
  { apply table_rows_elem; [exact Hnn'|]. unfold t'. apply lookup_insert_eq. }
  assert (Hlen : length (sql.row_of <$> map_to_list t') = S (size (sql.table (pgstore.db s)))).
  { rewrite length_fmap, length_map_to_list. unfold t'.
    now apply map_size_insert_None. }
  destruct (sql.row_of <$> map_to_list t') as [|row rows]; [discriminate|].
  simpl. split; [reflexivity|]. split; [reflexivity|]. split; [exact Hmem|].
  rewrite length_map. exact Hlen.
Qed.

Lemma pgstore_Create_then_List_witness :
  let o := {| ID := "1"; Item := "Widget"; Quantity := 2 |} in
  let s := pgstore.NewPGStore {| sql.table := ∅; sql.fault := None |} in
  len (fst (pgstore.List Background (fst (pgstore.Create Background o s)))) = 1.
Proof.
  intros o s.
  destruct (pgstore_Create_then_List Background s
              (fst (pgstore.Create Background o s)) o) as (_ & _ & _ & _ & H).
  - intros k cols. simpl. rewrite lookup_empty. discriminate.
  - vm_compute. reflexivity.
  - rewrite H. reflexivity.
Defined.
